(** * Reframe backend (server.js): prompt reframing pipeline

    A shallow embedding of the ambiguity detector, the image-intent
    classifier, the response formatter and the [/api/reframe] handler of
    [src/server.js], with the properties of the specification stated and
    settled against it.

    Modelling conventions.
    - A JavaScript string is a Rocq [string]; each character is one UTF-16
      code unit in the range U+0000..U+00FF, so [String.length] is the
      JavaScript [.length].  Everything the source does with characters
      (white space, word characters, case mapping) is written out for this
      range.
    - A JavaScript object that is serialised with [res.json] is a [json]
      value whose fields keep their insertion order.
    - The fields of a request body are strings or absent, as the inbound
      interface types them; [clarifications] is the list of its entries.
    - [model-examples.json] is a data file read when the module loads: its
      five [example] texts are a parameter ([model_examples]).
    - [new Date().toISOString()], [process.env] and the OpenAI client are
      inputs of the handler (record [world]); the handler returns its reply
      together with the calls it made. *)

From Stdlib Require Import String Ascii List Bool Arith Lia ZArith.
Import ListNotations.
Open Scope string_scope.
Open Scope list_scope.
Open Scope nat_scope.

(* ================================================================== *)
(** ** JavaScript string built-ins used by the source *)
(* ================================================================== *)

Module JS.

Definition code (c : ascii) : nat := nat_of_ascii c.

Definition in_range (lo hi : nat) (c : ascii) : bool :=
  (lo <=? code c) && (code c <=? hi).

(** White space and line terminators of ECMAScript below U+0100:
    TAB, LF, VT, FF, CR, SPACE and NBSP.  Used by [trim] and by [\s]. *)
Definition isSpace (c : ascii) : bool :=
  in_range 9 13 c || (code c =? 32) || (code c =? 160).

(** [\w] without the unicode flag: [A-Za-z0-9_]. *)
Definition isWordChar (c : ascii) : bool :=
  in_range 48 57 c || in_range 65 90 c || (code c =? 95) || in_range 97 122 c.

(** [String.prototype.toLowerCase] on one code unit: A-Z and the
    Latin-1 capitals U+00C0..U+00DE (without the multiplication sign). *)
Definition lower (c : ascii) : ascii :=
  if in_range 65 90 c || (in_range 192 222 c && negb (code c =? 215))
  then ascii_of_nat (code c + 32) else c.

(** Canonicalize of a code unit under the [i] flag (no [u] flag): the
    upper-case mapping when it is a single code unit of the same range. *)
Definition canonicalize (c : ascii) : ascii :=
  if in_range 97 122 c || (in_range 224 254 c && negb (code c =? 247))
  then ascii_of_nat (code c - 32) else c.

Fixpoint toLowerCase (s : string) : string :=
  match s with
  | EmptyString => EmptyString
  | String c s' => String (lower c) (toLowerCase s')
  end.

(** [s.startsWith(p)] *)
Definition startsWith (s p : string) : bool := String.prefix p s.

(** [s.includes(k)] *)
Fixpoint includes (s k : string) : bool :=
  startsWith s k ||
  match s with
  | EmptyString => false
  | String _ s' => includes s' k
  end.

(** [s.split(sep)] for a one-character separator: never the empty list,
    empty pieces are kept. *)
Fixpoint split (sep : ascii) (s : string) : list string :=
  match s with
  | EmptyString => [EmptyString]
  | String c s' =>
      if Ascii.eqb c sep then EmptyString :: split sep s'
      else match split sep s' with
           | h :: t => String c h :: t
           | [] => [String c EmptyString]
           end
  end.

(** [l.join(sep)] *)
Definition join (sep : string) (l : list string) : string := String.concat sep l.

Fixpoint trimStart (s : string) : string :=
  match s with
  | EmptyString => EmptyString
  | String c s' => if isSpace c then trimStart s' else s
  end.

Fixpoint trimEnd (s : string) : string :=
  match s with
  | EmptyString => EmptyString
  | String c s' =>
      match trimEnd s' with
      | EmptyString => if isSpace c then EmptyString else String c EmptyString
      | t => String c t
      end
  end.

(** [s.trim()] *)
Definition trim (s : string) : string := trimEnd (trimStart s).

(** Truthiness of a string: [!s] is true exactly for the empty string. *)
Definition truthy (s : string) : bool :=
  match s with EmptyString => false | _ => true end.

(** [a || b] on strings. *)
Definition or_else (a b : string) : string := if truthy a then a else b.

(** Last code unit of a string, if any. *)
Fixpoint last_char (s : string) : option ascii :=
  match s with
  | EmptyString => None
  | String c EmptyString => Some c
  | String _ s' => last_char s'
  end.

Definition first_char (s : string) : option ascii :=
  match s with EmptyString => None | String c _ => Some c end.

Fixpoint all_chars (p : ascii -> bool) (s : string) : bool :=
  match s with
  | EmptyString => true
  | String c s' => p c && all_chars p s'
  end.

End JS.

(* ================================================================== *)
(** ** Regular expressions: the fragment of the three literals of
       [detectAmbiguity], with the backtracking matcher of ECMAScript *)
(* ================================================================== *)

Module Regex.
Import JS.

Inductive charclass := ClsSpace | ClsWord.

Definition in_class (cl : charclass) : ascii -> bool :=
  match cl with ClsSpace => isSpace | ClsWord => isWordChar end.

Inductive regex :=
| Eps                                   (* the empty pattern *)
| Chr (c : ascii)                       (* a pattern character *)
| Seq (r1 r2 : regex)                   (* r1 r2 *)
| Alt (r1 r2 : regex)                   (* r1|r2 *)
| WordBoundary                          (* \b *)
| Plus (cl : charclass)                 (* \s+ and \w+ , greedy *)
| NegLookahead (r : regex).             (* (?!r) *)

(** A literal word is the sequence of its characters. *)
Fixpoint lit (w : string) : regex :=
  match w with
  | EmptyString => Eps
  | String c w' => Seq (Chr c) (lit w')
  end.

(** [w|w1|...|wn] *)
Fixpoint any_of (w : string) (ws : list string) : regex :=
  match ws with
  | [] => lit w
  | w' :: ws' => Alt (lit w) (any_of w' ws')
  end.

(** A position in the input: the code unit before it and the rest. *)
Definition cont := option ascii -> string -> bool.

Definition opt_word (c : option ascii) : bool :=
  match c with Some x => isWordChar x | None => false end.

(** [\b]: exactly one side of the position is a word character. *)
Definition at_boundary (prev : option ascii) (rest : string) : bool :=
  xorb (opt_word prev) (opt_word (first_char rest)).

Definition char_eq (icase : bool) (x c : ascii) : bool :=
  if icase then Ascii.eqb (canonicalize x) (canonicalize c) else Ascii.eqb x c.

(** Greedy [cl+]: the longest run first, then shorter ones. *)
Fixpoint plus_class (p : ascii -> bool) (rest : string) (k : cont) : bool :=
  match rest with
  | EmptyString => false
  | String x xs => if p x then plus_class p xs k || k (Some x) xs else false
  end.

(** The matcher, in continuation-passing style as in the language
    definition: [k] is what remains to be matched after [r]. *)
Fixpoint rmatch (icase : bool) (r : regex) (prev : option ascii) (rest : string)
                (k : cont) {struct r} : bool :=
  match r with
  | Eps => k prev rest
  | Chr c =>
      match rest with
      | EmptyString => false
      | String x xs => if char_eq icase x c then k (Some x) xs else false
      end
  | Seq r1 r2 => rmatch icase r1 prev rest (fun p m => rmatch icase r2 p m k)
  | Alt r1 r2 => rmatch icase r1 prev rest k || rmatch icase r2 prev rest k
  | WordBoundary => if at_boundary prev rest then k prev rest else false
  | Plus cl => plus_class (in_class cl) rest k
  | NegLookahead r1 =>
      if rmatch icase r1 prev rest (fun _ _ => true) then false else k prev rest
  end.

Record RegExp := { source : regex; ignoreCase : bool; global : bool }.

(** Try every start position from the left. *)
Fixpoint search (icase : bool) (r : regex) (prev : option ascii) (rest : string) : bool :=
  rmatch icase r prev rest (fun _ _ => true) ||
  match rest with
  | EmptyString => false
  | String x xs => search icase r (Some x) xs
  end.

(** [re.test(s)] on a freshly evaluated literal ([lastIndex] is 0, so the
    [g] flag makes no difference to the result). *)
Definition test (re : RegExp) (s : string) : bool :=
  search (ignoreCase re) (source re) None s.

End Regex.

(* ================================================================== *)
(** ** Ambiguity detection (server.js, detectAmbiguity) *)
(* ================================================================== *)

Import JS Regex.

Record finding := {
  type : string;
  question : string;
  options : list string
}.

Record ambiguity_result := {
  hasAmbiguity : bool;
  questions : list finding
}.

(** [/\b(some|few|many|several|a bit|lots of)\b/gi] *)
Definition vagueQuantifiers : RegExp :=
  {| source :=
       Seq WordBoundary
         (Seq (any_of "some" ["few"; "many"; "several"; "a bit"; "lots of"])
              WordBoundary);
     ignoreCase := true; global := true |}.

(** [/\b(explain|describe|tell me about)\s+(?!how|why|when|where)\w+/i] *)
Definition broadTopics : RegExp :=
  {| source :=
       Seq WordBoundary
         (Seq (any_of "explain" ["describe"; "tell me about"])
            (Seq (Plus ClsSpace)
               (Seq (NegLookahead (any_of "how" ["why"; "when"; "where"]))
                    (Plus ClsWord))));
     ignoreCase := true; global := false |}.

(** [/\b(list|table|summary|paragraph|code|json|steps)\b/i] *)
Definition formatKeywords : RegExp :=
  {| source :=
       Seq WordBoundary
         (Seq (any_of "list" ["table"; "summary"; "paragraph"; "code"; "json"; "steps"])
              WordBoundary);
     ignoreCase := true; global := false |}.

Definition vague_quantifier_finding : finding :=
  {| type := "vague_quantifier";
     question := "How many examples or items would you like?";
     options := ["1-2"; "3-5"; "5-10"; "More than 10"] |}.

Definition undefined_scope_finding : finding :=
  {| type := "undefined_scope";
     question := "What level of detail do you need?";
     options := ["Brief overview"; "Moderate detail"; "In-depth explanation"] |}.

Definition missing_format_finding : finding :=
  {| type := "missing_format";
     question := "How should the output be formatted?";
     options := ["Bullet points"; "Paragraph"; "Step-by-step"; "Table"] |}.

(** [ambiguities.push(f)] when the rule fires. *)
Definition push_if (b : bool) (f : finding) (ambiguities : list finding) : list finding :=
  if b then ambiguities ++ [f] else ambiguities.

Definition space : ascii := ascii_of_nat 32.

Definition detectAmbiguity (prompt : string) : ambiguity_result :=
  let ambiguities := [] in
  let ambiguities :=
    push_if (test vagueQuantifiers prompt) vague_quantifier_finding ambiguities in
  let ambiguities :=
    push_if (test broadTopics prompt && (String.length prompt <? 50))
            undefined_scope_finding ambiguities in
  let ambiguities :=
    push_if (negb (test formatKeywords prompt)
             && (10 <? List.length (split space prompt)))
            missing_format_finding ambiguities in
  {| hasAmbiguity := 0 <? List.length ambiguities;
     questions := firstn 3 ambiguities |}.


(* ================================================================== *)
(** ** Image generation detection (server.js, isImageGenerationRequest) *)
(* ================================================================== *)

Definition imageKeywords : list string :=
  ["image"; "picture"; "photo"; "visual"; "graphic"; "illustration";
   "artwork"; "thumbnail"; "poster"; "banner"].

Definition creationVerbs : list string :=
  ["create"; "generate"; "make"; "design"; "draw"; "produce"; "craft"].

Definition qualityKeywords : list string :=
  ["high quality"; "vibrant"; "eye-catching"; "ultra"; "stunning";
   "dramatic"; "cinematic"].

(** [arr.some(f)] *)
Definition some {A} (f : A -> bool) (arr : list A) : bool := existsb f arr.

Definition isImageGenerationRequest (prompt : string) : bool :=
  let lowerPrompt := toLowerCase prompt in
  let hasImageKeyword := some (fun keyword => includes lowerPrompt keyword) imageKeywords in
  let hasCreationVerb := some (fun verb => includes lowerPrompt verb) creationVerbs in
  let hasQualityKeyword := some (fun keyword => includes lowerPrompt keyword) qualityKeywords in
  hasImageKeyword && (hasCreationVerb || hasQualityKeyword).

(* ================================================================== *)
(** ** JSON values: what [res.json] sends *)
(* ================================================================== *)

Unset Elimination Schemes.
Inductive json :=
| JNum (n : Z)
| JStr (s : string)
| JArr (items : list json)
| JObj (fields : list (string * json)).
Set Elimination Schemes.

(** [o[k]] on the own fields of an object; [None] is [undefined]. *)
Fixpoint lookup (k : string) (fields : list (string * json)) : option json :=
  match fields with
  | [] => None
  | (k', v) :: rest => if String.eqb k k' then Some v else lookup k rest
  end.

Definition get (k : string) (j : json) : option json :=
  match j with JObj fields => lookup k fields | _ => None end.

(** [j.k1.k2...]: [None] as soon as a field is missing. *)
Fixpoint get_path (ks : list string) (j : json) : option json :=
  match ks with
  | [] => Some j
  | k :: ks' => match get k j with Some v => get_path ks' v | None => None end
  end.

(** [o[k] = v]: overwrite in place, or add as the last field. *)
Fixpoint assign (k : string) (v : json) (fields : list (string * json)) : list (string * json) :=
  match fields with
  | [] => [(k, v)]
  | (k', v') :: rest =>
      if String.eqb k k' then (k', v) :: rest else (k', v') :: assign k v rest
  end.

Definition set (k : string) (v : json) (j : json) : json :=
  match j with JObj fields => JObj (assign k v fields) | _ => j end.

(** [o.k1.k2 = v] where [o.k1] is an object. *)
Definition set_in (k1 k2 : string) (v : json) (j : json) : json :=
  match get k1 j with
  | Some inner => set k1 (set k2 v inner) j
  | None => j
  end.

Definition JLen (s : string) : json := JNum (Z.of_nat (String.length s)).

(* ================================================================== *)
(** ** Model-specific formatters (server.js, formatForModel) *)
(* ================================================================== *)

Definition newline : string := String (ascii_of_nat 10) EmptyString.
Definition hash : string := String (ascii_of_nat 35) EmptyString.

(** The [for] loop of [extractSystemPrompt]: push lines until a line whose
    trimmed text starts with [#] is met while [systemContent] is not empty. *)
Fixpoint scan_lines (lines systemContent : list string) : list string :=
  match lines with
  | [] => systemContent
  | line :: rest =>
      if startsWith (trim line) hash && (0 <? List.length systemContent)
      then systemContent
      else scan_lines rest (systemContent ++ [line])
  end.

Definition extractSystemPrompt (prompt : string) : string :=
  let lines := split (ascii_of_nat 10) prompt in
  let systemContent := scan_lines lines [] in
  or_else (trim (join newline systemContent)) prompt.

Definition extractUserTask (prompt : string) : string := prompt.

Definition message (role content : string) : json :=
  JObj [("role", JStr role); ("content", JStr content)].

(** The [switch (model)] of [formatForModel]: the value stored in
    [baseResponse.reframed.api_ready]. *)
Definition api_ready (model restructuredPrompt : string) : json :=
  if String.eqb model "claude" then
    JObj [("model", JStr "claude-3-5-sonnet-20241022");
          ("max_tokens", JNum 4096);
          ("messages", JArr [message "user" restructuredPrompt])]
  else if String.eqb model "chatgpt" then
    JObj [("model", JStr "gpt-4o");
          ("messages", JArr [message "system" (extractSystemPrompt restructuredPrompt);
                             message "user" (extractUserTask restructuredPrompt)]);
          ("temperature", JNum 0)]
  else if String.eqb model "gemini" then
    JObj [("model", JStr "gemini-2.5-flash");
          ("contents", JObj [("parts", JArr [JObj [("text", JStr restructuredPrompt)]])])]
  else if String.eqb model "perplexity" then
    JObj [("model", JStr "sonar");
          ("messages", JArr [message "system" restructuredPrompt])]
  else
    JObj [("prompt", JStr restructuredPrompt)].

(** [timestamp] is the reading of the clock, [new Date().toISOString()]. *)
Definition formatForModel (timestamp : string)
    (model restructuredPrompt originalPrompt : string) : json :=
  let baseResponse :=
    JObj [("model", JStr model);
          ("original_prompt", JStr originalPrompt);
          ("reframed", JObj [("raw", JStr restructuredPrompt)]);
          ("metadata", JObj [("timestamp", JStr timestamp);
                             ("original_length", JLen originalPrompt);
                             ("reframed_length", JLen restructuredPrompt)])] in
  set_in "reframed" "api_ready" (api_ready model restructuredPrompt) baseResponse.

(* ================================================================== *)
(** ** Model-specific prompt structures (server.js, MODEL_TEMPLATES) *)
(* ================================================================== *)

(** The contents of [model-examples.json], which the templates splice in:
    the [example] text of each of the five entries. *)
Record model_examples := {
  chatgpt_example : string;
  claude_example : string;
  gemini_example : string;
  perplexity_example : string;
  others_example : string
}.

Definition dq : string := String (ascii_of_nat 34) EmptyString.
Definition blank : string := EmptyString.

(** The lines of a template literal. *)
Definition text (lines : list string) : string := join newline lines.

Definition chatgpt_systemPrompt (modelExamples : model_examples) : string :=
  text
   [ "You are a prompt restructuring engine for ChatGPT/OpenAI models.";
     blank;
     "Rules:";
     "1. Output ONLY the restructured prompt. No explanations, preambles, or meta-commentary.";
     "2. Preserve user intent exactly. Do not add features, remove constraints, or change meaning.";
     "3. Apply ChatGPT-specific formatting by following the example structure provided below.";
     "4. If clarifications provided, integrate them seamlessly.";
     "5. Do not execute the prompt. Do not provide answers. Only restructure.";
     ("6. NEVER mention model version numbers (like " ++ dq ++ "GPT-4" ++ dq ++ ", " ++ dq ++ "GPT-5" ++ dq ++ ", " ++ dq ++ "ChatGPT-4o" ++ dq ++ ", etc.) in the restructured prompt. Simply write for the latest ChatGPT capabilities without version references.")%string;
     blank;
     "EXAMPLE STRUCTURE FOR CHATGPT PROMPTS:";
     chatgpt_example modelExamples;
     blank;
     "Your task:";
     "- Analyze the example structure above (note the use of Jupyter notebook style, markdown sections, XML-style tags like <output_verbosity_spec>, detailed enterprise patterns)";
     "- Apply similar structural patterns to restructure the user's prompt";
     "- Maintain the same level of detail, organization, and formatting style";
     "- Use appropriate sections like verbosity control, scope constraints, tool usage, long-context handling, etc. when relevant";
     "- Keep the user's original intent but present it in ChatGPT's preferred format";
     "- Write for the latest model capabilities without mentioning any version numbers" ].

Definition claude_systemPrompt (modelExamples : model_examples) : string :=
  text
   [ "You are a prompt restructuring engine for Claude AI.";
     blank;
     "Rules:";
     "1. Output ONLY the restructured prompt. No explanations, preambles, or meta-commentary.";
     "2. Preserve user intent exactly. Do not add features, remove constraints, or change meaning.";
     "3. Apply Claude-specific formatting by following the example structure provided below.";
     "4. If clarifications provided, integrate them seamlessly.";
     "5. Do not execute the prompt. Do not provide answers. Only restructure.";
     ("6. NEVER mention model version numbers (like " ++ dq ++ "Claude 3" ++ dq ++ ", " ++ dq ++ "Claude 3.5" ++ dq ++ ", " ++ dq ++ "Sonnet" ++ dq ++ ", etc.) in the restructured prompt. Simply write for the latest Claude capabilities without version references.")%string;
     blank;
     "EXAMPLE STRUCTURE FOR CLAUDE PROMPTS:";
     claude_example modelExamples;
     blank;
     "Your task:";
     "- Analyze the example structure above (note the use of XML-style tags like <critical_injection_defense>, <behavior_instructions>, <tone_and_formatting>, hierarchical organization)";
     "- Apply similar structural patterns to restructure the user's prompt";
     "- Maintain the same level of detail, organization, and formatting style";
     "- Use XML tags to organize different sections (goals, rules, constraints, etc.)";
     "- Include relevant sections for security, behavior, tone, and action types when applicable";
     "- Keep the user's original intent but present it in Claude's preferred format";
     "- Write for the latest model capabilities without mentioning any version numbers" ].

Definition gemini_systemPrompt (modelExamples : model_examples) : string :=
  text
   [ "You are a prompt restructuring engine for Gemini AI.";
     blank;
     "Rules:";
     "1. Output ONLY the restructured prompt. No explanations, preambles, or meta-commentary.";
     "2. Preserve user intent exactly. Do not add features, remove constraints, or change meaning.";
     "3. Apply Gemini-specific formatting by following the example structure provided below.";
     "4. If clarifications provided, integrate them seamlessly.";
     "5. Do not execute the prompt. Do not provide answers. Only restructure.";
     ("6. NEVER mention model version numbers (like " ++ dq ++ "Gemini 2.0" ++ dq ++ ", " ++ dq ++ "Gemini 2.5" ++ dq ++ ", " ++ dq ++ "Flash" ++ dq ++ ", " ++ dq ++ "Pro" ++ dq ++ ", etc.) in the restructured prompt. Simply write for the latest Gemini capabilities without version references.")%string;
     blank;
     "EXAMPLE STRUCTURE FOR GEMINI PROMPTS:";
     gemini_example modelExamples;
     blank;
     "Your task:";
     "- Analyze the example structure above (note the use of markdown headers ##, code examples, detailed technical specifications, React/TypeScript patterns if coding-related)";
     "- Apply similar structural patterns to restructure the user's prompt";
     "- Maintain the same level of detail, organization, and formatting style";
     "- Use markdown headers for clear section organization";
     "- Include code examples and technical guidelines when relevant";
     "- For coding tasks, structure with sections like Runtime, Project Structure, Syntax Rules, API guidance";
     "- Keep the user's original intent but present it in Gemini's preferred format";
     "- Write for the latest model capabilities without mentioning any version numbers" ].

Definition perplexity_systemPrompt (modelExamples : model_examples) : string :=
  text
   [ "You are a prompt restructuring engine for Perplexity AI.";
     blank;
     "Rules:";
     "1. Output ONLY the restructured prompt. No explanations, preambles, or meta-commentary.";
     "2. Preserve user intent exactly. Do not add features, remove constraints, or change meaning.";
     "3. Apply Perplexity-specific formatting by following the example structure provided below.";
     "4. If clarifications provided, integrate them seamlessly.";
     "5. Do not execute the prompt. Do not provide answers. Only restructure.";
     ("6. NEVER mention model version numbers (like " ++ dq ++ "Sonar" ++ dq ++ ", " ++ dq ++ "Pro" ++ dq ++ ", etc.) in the restructured prompt. Simply write for the latest Perplexity capabilities without version references.")%string;
     blank;
     "EXAMPLE STRUCTURE FOR PERPLEXITY PROMPTS:";
     perplexity_example modelExamples;
     blank;
     "Your task:";
     "- Analyze the example structure above (note the use of XML tags like <goal>, <format_rules>, <restrictions>, <query_type>, emphasis on citations and search-grounded answers)";
     "- Apply similar structural patterns to restructure the user's prompt";
     "- Maintain the same level of detail, organization, and formatting style";
     "- Include sections for goal definition, formatting rules, citation requirements, and query type handling";
     "- Emphasize search grounding, journalistic tone, and proper citation practices";
     "- Use XML tags to organize different instruction categories";
     "- Keep the user's original intent but present it in Perplexity's preferred format";
     "- Write for the latest model capabilities without mentioning any version numbers" ].

Definition others_systemPrompt (modelExamples : model_examples) : string :=
  text
   [ "You are a prompt restructuring engine for general AI models.";
     blank;
     "Rules:";
     "1. Output ONLY the restructured prompt. No explanations, preambles, or meta-commentary.";
     "2. Preserve user intent exactly. Do not add features, remove constraints, or change meaning.";
     "3. Apply universal best practices by following the example structure provided below.";
     "4. If clarifications provided, integrate them seamlessly.";
     "5. Do not execute the prompt. Do not provide answers. Only restructure.";
     blank;
     "EXAMPLE STRUCTURE FOR GENERAL AI PROMPTS:";
     others_example modelExamples;
     blank;
     "Your task:";
     "- Analyze the example structure above (note the simple, clear organization with Task, Input, Requirements, Output sections)";
     "- Apply similar structural patterns to restructure the user's prompt";
     "- Maintain the same level of clarity and simplicity";
     "- Use clear section headers";
     "- Organize with: Task description, Input/Context, Requirements/Constraints, Expected Output format";
     "- Keep the user's original intent but present it in a clear, universally compatible format" ].

Definition IMAGE_GENERATION_SYSTEM_PROMPT : string :=
  text
   [ "You are an expert prompt architect for image generation AI models (DALL-E, Midjourney, Stable Diffusion, etc.).";
     blank;
     "CRITICAL RULES:";
     "1. Output ONLY the enhanced prompt - NO explanations, NO meta-commentary, NO markdown structure";
     "2. Create a highly detailed, structured prompt optimized for exceptional AI-generated imagery";
     "3. Preserve ALL user-specified elements exactly - do not add or remove requested subjects";
     "4. Every word must add value - no filler or unnecessary language";
     "5. Structure the prompt with clear logical sections for maximum AI comprehension";
     blank;
     "REQUIRED STRUCTURE (present as flowing descriptive text, NOT as labeled sections):";
     blank;
     "1. OPENING (Main Subject & Composition):";
     "   - Lead with the primary subject(s) and their spatial arrangement";
     "   - Specify positioning (left/right/center/foreground/background)";
     "   - Define composition type (split-screen, diagonal, centered, rule of thirds, etc.)";
     "   - Include camera angle (low-angle, bird's-eye, eye-level, dramatic dutch tilt, etc.)";
     "   - Mention framing and how subjects fill the frame";
     blank;
     "2. VISUAL DETAILS (for each key element):";
     "   - Precise descriptions: colors, textures, materials, finishes";
     "   - Physical characteristics: shape, size, proportions";
     "   - Dynamic elements: motion, speed indicators, action";
     "   - Brand/subject accuracy requirements when applicable";
     blank;
     "3. LIGHTING & ATMOSPHERE:";
     "   - Primary light source(s) and direction";
     "   - Light quality (hard/soft, warm/cool, dramatic/subtle)";
     "   - Rim lighting, backlighting, or special lighting effects";
     "   - Shadows and their characteristics";
     "   - Atmospheric effects (fog, haze, particles, god rays, etc.)";
     blank;
     "4. BACKGROUND & ENVIRONMENT:";
     "   - Setting description (but avoid clutter - keep focus on main subjects)";
     "   - Environmental context that enhances mood";
     "   - Depth of field considerations (sharp/blurred background)";
     "   - Motion blur, speed lines, or dynamic effects";
     blank;
     "5. ARTISTIC STYLE & QUALITY:";
     "   - Rendering style (photorealistic, cinematic, hyper-realistic, painterly, etc.)";
     "   - Visual treatment (high contrast, HDR, color grading, saturation level)";
     "   - Technical quality (ultra-sharp, 8K, professional, high-detail)";
     "   - Reference aesthetics if relevant (blade runner, studio Ghibli, etc.)";
     blank;
     "6. MOOD & EMOTION:";
     "   - Overall emotional tone (dramatic, serene, intense, playful, etc.)";
     "   - Energy level (explosive, calm, dynamic, static)";
     "   - Intended viewer response";
     blank;
     "7. PLATFORM-SPECIFIC OPTIMIZATION (if applicable):";
     "   - YouTube thumbnail: high contrast, large subjects, readable at small sizes";
     "   - Social media: eye-catching, bold colors, clear focal point";
     "   - Poster/banner: balanced composition, text space consideration";
     blank;
     "8. NEGATIVE CONSTRAINTS (subtly integrated):";
     ("   - Briefly mention what to avoid (e.g., " ++ dq ++ "no cartoon style, no flat lighting, no clutter" ++ dq ++ ")")%string;
     blank;
     "OUTPUT FORMAT:";
     ("Write as a continuous, flowing descriptive paragraph broken into logical sections with natural transitions. Do NOT use headers like " ++ dq ++ "Scene:" ++ dq ++ ", " ++ dq ++ "Lighting:" ++ dq ++ ", etc. Let the description flow organically while covering all required elements.")%string;
     blank;
     "EXAMPLE OUTPUT:";
     (dq ++ "A high-octane head-to-head automotive clash featuring a vibrant McLaren supercar and a sleek Mercedes-Benz performance car in an explosive split-screen composition. The McLaren dominates the left third, angled aggressively toward center, painted in molten orange with glossy metallic reflections showcasing its aerodynamic curves and razor-sharp lines. The Mercedes-Benz commands the right third, positioned in a competitive stance, rendered in deep gunmetal silver with chrome accents emphasizing its engineered precision and powerful stance. Both vehicles are captured from a dramatic low camera angle that amplifies their dominance and aggression, filling 80% of the frame with minimal empty space. At the collision point where the cars converge, a massive chrome " ++ dq ++ "VS" ++ dq ++ " emblem with cracked electric edges and explosive spark effects radiates outward, creating a shockwave of energy. The McLaren side bathes in warm orange and red highlights with motion streaks and speed particles, while the Mercedes side glows with cool blue and silver rim lighting suggesting controlled power. Strong studio lighting with cinematic contrast creates sharp rim lighting that separates both cars from the high-energy abstract background. The background features motion blur, smoke trails, light streaks, and speed lines in complementary warm-cool gradients, avoiding any distracting detailed scenery. Ultra-sharp focus on both vehicles, hyper-realistic rendering with extreme detail, high saturation with controlled highlights, designed for maximum visual impact at small thumbnail sizes. Professional automotive photography style, cinematic color grading, no cartoon elements, no flat lighting, no cluttered backgrounds, no extraneous text beyond the central VS emblem. Optimized for YouTube thumbnail with instant readability and maximum click-through appeal." ++ dq)%string;
     blank;
     "Your task: Transform the user's image request into a comprehensive, structured prompt following this approach." ].

(** What [MODEL_TEMPLATES[key]] evaluates to.  [MODEL_TEMPLATES] is an
    object literal, so besides its five own entries the property access
    finds the members of [Object.prototype]. *)
Inductive property :=
| Template (systemPrompt : string)
| Inherited
| Undefined.

Definition object_prototype_members : list string :=
  ["constructor"; "hasOwnProperty"; "isPrototypeOf"; "propertyIsEnumerable";
   "toLocaleString"; "toString"; "valueOf"; "__proto__";
   "__defineGetter__"; "__defineSetter__"; "__lookupGetter__"; "__lookupSetter__"].

Definition MODEL_TEMPLATES (modelExamples : model_examples) (key : string) : property :=
  if String.eqb key "chatgpt" then Template (chatgpt_systemPrompt modelExamples)
  else if String.eqb key "claude" then Template (claude_systemPrompt modelExamples)
  else if String.eqb key "gemini" then Template (gemini_systemPrompt modelExamples)
  else if String.eqb key "perplexity" then Template (perplexity_systemPrompt modelExamples)
  else if String.eqb key "others" then Template (others_systemPrompt modelExamples)
  else if existsb (String.eqb key) object_prototype_members then Inherited
  else Undefined.

(** [p.systemPrompt]; [None] is [undefined]. *)
Definition systemPrompt_of (p : property) : option string :=
  match p with Template s => Some s | _ => None end.

(* ================================================================== *)
(** ** The reframe route (server.js, app.post('/api/reframe')) *)
(* ================================================================== *)

(** [req.body]: an absent field is [None]. *)
Record body := {
  raw_prompt : option string;
  model : option string;
  clarifications : option (list (string * string))
}.

Record chat_message := { role : string; content : option string }.

Record chat_request := {
  chat_model : string;
  temperature : Z;
  messages : list chat_message
}.

(** What awaiting [openai.chat.completions.create] gives: a rejection, or
    a completion with the [message.content] of each choice ([None] for a
    [null] content). *)
Inductive completion :=
| Rejected
| Resolved (choices : list (option string)).

Record environment := { OPENAI_API_KEY : option string }.

Record world := {
  modelExamples : model_examples;
  process_env : environment;
  create : chat_request -> completion;
  clock : string
}.

Definition configured (e : environment) : bool :=
  match OPENAI_API_KEY e with Some k => truthy k | None => false end.

(** Module initialisation (server.js, lines 32-34). *)
Inductive startup_result :=
| StartupError (msg : string)
| Listening.

Definition startup (e : environment) : startup_result :=
  if negb (configured e) then StartupError "OPENAI_API_KEY is missing"
  else Listening.

Record reply := { status : nat; sent : json }.

(** The calls a request makes, in order. *)
Inductive call :=
| CallIsImageGenerationRequest (prompt : string)
| CallCreate (rq : chat_request)
| CallFormatForModel (model restructuredPrompt originalPrompt : string).

Fixpoint clarification_lines (entries : list (string * string)) : string :=
  match entries with
  | [] => EmptyString
  | (key, value) :: rest =>
      ("- " ++ key ++ ": " ++ value ++ newline ++ clarification_lines rest)%string
  end.

Definition clarificationContext (c : option (list (string * string))) : string :=
  match c with
  | Some (e :: es) =>
      (newline ++ newline ++ "Clarifications provided by user:" ++ newline
       ++ clarification_lines (e :: es))%string
  | _ => EmptyString
  end.

Definition bad_request (msg : string) : reply :=
  {| status := 400; sent := JObj [("error", JStr msg)] |}.

Definition ok (j : json) : reply := {| status := 200; sent := j |}.

(** Result of the [try] block: a reply was sent, or an exception reached
    the [catch]. *)
Inductive attempt :=
| Sent (r : reply)
| Raised.

(** The request handed to [openai.chat.completions.create]. *)
Definition chat_request_for (raw : string) (tpl : property)
    (clar : option (list (string * string))) : chat_request :=
  let context := clarificationContext clar in
  let isImageRequest := isImageGenerationRequest raw in
  let systemPrompt :=
    if isImageRequest then Some IMAGE_GENERATION_SYSTEM_PROMPT
    else systemPrompt_of tpl in
  {| chat_model := "gpt-4o-mini";
     temperature := 0;
     messages :=
       [ {| role := "system"; content := systemPrompt |};
         {| role := "user";
            content := Some ("Original prompt: " ++ raw ++ context)%string |} ] |}.

(** From the clarification context to [res.json(formattedResponse)]:
    [completion.choices[0].message.content.trim()] throws when there is no
    first choice or its content is [null]. *)
Definition restructure (w : world) (raw m : string) (tpl : property)
    (clar : option (list (string * string))) : attempt * list call :=
  let rq := chat_request_for raw tpl clar in
  match create w rq with
  | Resolved (Some generated :: _) =>
      let restructuredPrompt := trim generated in
      (Sent (ok (formatForModel (clock w) m restructuredPrompt raw)),
       [CallIsImageGenerationRequest raw; CallCreate rq;
        CallFormatForModel m restructuredPrompt raw])
  | _ => (Raised, [CallIsImageGenerationRequest raw; CallCreate rq])
  end.

Definition reframe_try (w : world) (b : body) : attempt * list call :=
  match raw_prompt b with
  | None | Some EmptyString => (Sent (bad_request "Prompt is required"), [])
  | Some raw =>
      match model b with
      | None | Some EmptyString => (Sent (bad_request "Invalid model specified"), [])
      | Some m =>
          match MODEL_TEMPLATES (modelExamples w) m with
          | Undefined => (Sent (bad_request "Invalid model specified"), [])
          | tpl =>
              if negb (configured (process_env w)) then
                (Sent (ok (JObj [("restructured_prompt", JStr raw);
                                 ("model", JStr m);
                                 ("error", JStr "API key not configured");
                                 ("timestamp", JStr (clock w))])), [])
              else restructure w raw m tpl (clarifications b)
          end
      end
  end.

(** The handler: the [try] block, and the [catch] that formats the
    original prompt.  [None] when no reply is sent. *)
Definition reframe (w : world) (b : body) : option reply * list call :=
  match reframe_try w b with
  | (Sent r, calls) => (Some r, calls)
  | (Raised, calls) =>
      match model b, raw_prompt b with
      | Some m, Some raw =>
          let errorResponse := formatForModel (clock w) m raw raw in
          let errorResponse :=
            set "error" (JStr "Automatic restructuring unavailable") errorResponse in
          (Some (ok errorResponse), calls ++ [CallFormatForModel m raw raw])
      | _, _ => (None, calls)
      end
  end.

(** The process as a whole: a request is served only after start-up. *)
Definition serve (w : world) (b : body) : option (option reply * list call) :=
  match startup (process_env w) with
  | StartupError _ => None
  | Listening => Some (reframe w b)
  end.

(* ================================================================== *)
(** ** Declarative reading of the patterns and of the specification *)
(* ================================================================== *)

(** [matches icase r prev rest prev' rest']: [r] can consume the input from
    the position [(prev, rest)] up to the position [(prev', rest')]. *)
Fixpoint matches (icase : bool) (r : regex) (prev : option ascii) (rest : string)
    (prev' : option ascii) (rest' : string) : Prop :=
  match r with
  | Eps => prev' = prev /\ rest' = rest
  | Chr c => exists x, rest = String x rest' /\ char_eq icase x c = true /\ prev' = Some x
  | Seq r1 r2 =>
      exists p m, matches icase r1 prev rest p m /\ matches icase r2 p m prev' rest'
  | Alt r1 r2 =>
      matches icase r1 prev rest prev' rest' \/ matches icase r2 prev rest prev' rest'
  | WordBoundary => at_boundary prev rest = true /\ prev' = prev /\ rest' = rest
  | Plus cl =>
      exists run, run <> EmptyString /\ all_chars (in_class cl) run = true /\
                  rest = (run ++ rest')%string /\ prev' = last_char run
  | NegLookahead r1 =>
      (~ exists p m, matches icase r1 prev rest p m) /\ prev' = prev /\ rest' = rest
  end.

(** The code unit before the position reached after reading [read] from a
    position preceded by [prev]. *)
Definition prev_after (prev : option ascii) (read : string) : option ascii :=
  match last_char read with Some c => Some c | None => prev end.

(** A lower-case word that starts and ends with a word character. *)
Definition edge_word (x : string) : bool :=
  opt_word (first_char x) && opt_word (last_char x) && String.eqb (toLowerCase x) x.

(** [w] occurs in [prompt] as a whole word, whatever the case: the
    characters around the occurrence, if any, are not word characters. *)
Definition whole_word (w prompt : string) : Prop :=
  exists pre mid post,
    prompt = (pre ++ mid ++ post)%string /\
    toLowerCase mid = w /\
    opt_word (last_char pre) = false /\
    opt_word (first_char post) = false.

(** [k] occurs in [s] as a substring. *)
Definition occurs_in (k s : string) : Prop :=
  exists pre post, s = (pre ++ k ++ post)%string.



(** Number of white-space separated tokens: the maximal runs of characters
    that are not white space. *)
Fixpoint count_tokens (inside : bool) (s : string) : nat :=
  match s with
  | EmptyString => 0
  | String c s' =>
      if isSpace c then count_tokens false s'
      else (if inside then 0 else 1) + count_tokens true s'
  end.

Definition whitespace_tokens (s : string) : nat := count_tokens false s.

(** The system content as the specification words it: the lines before the
    first heading line that follows at least one line, the full text when
    there is no such line. *)
Definition is_heading (line : string) : bool := startsWith (trim line) hash.

Fixpoint before_boundary (lines seen : list string) : option (list string) :=
  match lines with
  | [] => None
  | line :: rest =>
      if is_heading line && (0 <? List.length seen) then Some seen
      else before_boundary rest (seen ++ [line])
  end.

Definition stated_system_content (restructured : string) : string :=
  match before_boundary (split (ascii_of_nat 10) restructured) [] with
  | Some seen => join newline seen
  | None => restructured
  end.

(** The generation call failed: the promise was rejected, or the
    completion has no usable first choice. *)
Definition generation_failed (c : completion) : bool :=
  match c with
  | Resolved (Some _ :: _) => false
  | _ => true
  end.

(** [l] is [ref] with some elements left out. *)
Fixpoint subsequence (l ref : list string) : bool :=
  match l, ref with
  | [], _ => true
  | _ :: _, [] => false
  | x :: l', y :: ref' =>
      if String.eqb x y then subsequence l' ref' else subsequence l ref'
  end.

(* ================================================================== *)
(** ** Sample worlds, for the concrete runs below *)
(* ================================================================== *)

Definition sample_examples : model_examples :=
  {| chatgpt_example := "# Role";
     claude_example := "<goal>";
     gemini_example := "## Runtime";
     perplexity_example := "<goal>";
     others_example := "Task:" |}.

(** No credential; the service would answer if it were called. *)
Definition world_without_key : world :=
  {| modelExamples := sample_examples;
     process_env := {| OPENAI_API_KEY := None |};
     create := fun _ => Resolved [Some "A poem, restructured."];
     clock := "2026-01-01T00:00:00.000Z" |}.

(** A credential, and a service that rejects every call. *)
Definition world_failing : world :=
  {| modelExamples := sample_examples;
     process_env := {| OPENAI_API_KEY := Some "sk-test" |};
     create := fun _ => Rejected;
     clock := "2026-01-01T00:00:00.000Z" |}.

(** A credential, and a service that answers with a fixed text. *)
Definition world_answering : world :=
  {| modelExamples := sample_examples;
     process_env := {| OPENAI_API_KEY := Some "sk-test" |};
     create := fun _ => Resolved [Some "  <task>Write a poem</task>  "];
     clock := "2026-01-01T00:00:00.000Z" |}.

Definition poem_request (m : string) : body :=
  {| raw_prompt := Some "Write a poem"; model := Some m; clarifications := None |}.

(* ================================================================== *)
(** ** The other routes and the middleware of server.js *)
(* ================================================================== *)

(** The reply of [app.post('/api/check-ambiguity')]: a status with an
    error message, or the result of detectAmbiguity sent with status 200. *)
Inductive ambiguity_reply :=
| AmbiguityError (http_status : nat) (error : string)
| AmbiguityResult (result : ambiguity_result).

(** [prompt] is [req.body.prompt], [None] when absent.  detectAmbiguity
    does not throw on a string, so the [catch] with its status 500 is not
    reached. *)
Definition checkAmbiguity (prompt : option string) : ambiguity_reply :=
  match prompt with
  | None | Some EmptyString => AmbiguityError 400 "Prompt is required"
  | Some p => AmbiguityResult (detectAmbiguity p)
  end.

(** The [origin] callback of the CORS middleware (server.js, lines 47-64). *)
Definition allowedOrigins : list string :=
  ["https://reframe.co.in";
   "https://www.reframe.co.in";
   "https://frame-frontend-beta.vercel.app";
   "http://localhost:8080"].

Inductive cors_decision :=
| CorsAllowed
| CorsError (msg : string).

Definition cors_origin (origin : option string) : cors_decision :=
  match origin with
  | None | Some EmptyString => CorsAllowed
  | Some o =>
      if existsb (String.eqb o) allowedOrigins then CorsAllowed
      else CorsError "CORS not allowed for this origin"
  end.

(** The letters A to Z in lower case, every other code unit as it is. *)
Definition ascii_lower (c : ascii) : ascii :=
  if in_range 65 90 c then ascii_of_nat (code c + 32) else c.

Fixpoint map_chars (f : ascii -> ascii) (s : string) : string :=
  match s with
  | EmptyString => EmptyString
  | String c s' => String (f c) (map_chars f s')
  end.

(** Two prompts with the same [fold_ascii_case] differ only in the case of
    the letters A to Z. *)
Definition fold_ascii_case (s : string) : string := map_chars ascii_lower s.

(** Two continuations that agree, one on the positions changed by [f]. *)
Definition agree (f : ascii -> ascii) (k' k : cont) : Prop :=
  forall p m, k' (option_map f p) (map_chars f m) = k p m.

(** Number of space characters of a string. *)
Fixpoint count_spaces (s : string) : nat :=
  match s with
  | EmptyString => 0
  | String c s' => (if Ascii.eqb c space then 1 else 0) + count_spaces s'
  end.

(** No white space at either end. *)
Definition trimmed (s : string) : Prop :=
  (forall c, first_char s = Some c -> isSpace c = false) /\
  (forall c, last_char s = Some c -> isSpace c = false).


(** The two validation checks of the reframe route, as the code makes
    them: a truthy prompt, a truthy model name that [MODEL_TEMPLATES] knows
    as a property. *)
Definition prompt_given (b : body) : bool :=
  match raw_prompt b with Some p => truthy p | None => false end.

Definition model_accepted (ex : model_examples) (b : body) : bool :=
  match model b with
  | Some m =>
      truthy m &&
      match MODEL_TEMPLATES ex m with Undefined => false | _ => true end
  | None => false
  end.

(** The five ways a request to the reframe route can end: the reply and
    the calls made. *)
Inductive reframe_outcome (w : world) (b : body) : option reply * list call -> Prop :=
| PromptMissing :
    prompt_given b = false ->
    reframe_outcome w b (Some (bad_request "Prompt is required"), [])
| ModelInvalid :
    prompt_given b = true ->
    model_accepted (modelExamples w) b = false ->
    reframe_outcome w b (Some (bad_request "Invalid model specified"), [])
| KeyMissing (raw m : string) :
    raw_prompt b = Some raw -> model b = Some m ->
    prompt_given b = true ->
    model_accepted (modelExamples w) b = true ->
    configured (process_env w) = false ->
    reframe_outcome w b
      (Some (ok (JObj [("restructured_prompt", JStr raw);
                       ("model", JStr m);
                       ("error", JStr "API key not configured");
                       ("timestamp", JStr (clock w))])), [])
| FullResult (raw m generated : string) (others : list (option string)) :
    raw_prompt b = Some raw -> model b = Some m ->
    prompt_given b = true ->
    model_accepted (modelExamples w) b = true ->
    configured (process_env w) = true ->
    create w (chat_request_for raw (MODEL_TEMPLATES (modelExamples w) m)
                               (clarifications b))
      = Resolved (Some generated :: others) ->
    reframe_outcome w b
      (Some (ok (formatForModel (clock w) m (trim generated) raw)),
       [CallIsImageGenerationRequest raw;
        CallCreate (chat_request_for raw (MODEL_TEMPLATES (modelExamples w) m)
                                     (clarifications b));
        CallFormatForModel m (trim generated) raw])
| DegradedResult (raw m : string) :
    raw_prompt b = Some raw -> model b = Some m ->
    prompt_given b = true ->
    model_accepted (modelExamples w) b = true ->
    configured (process_env w) = true ->
    generation_failed
      (create w (chat_request_for raw (MODEL_TEMPLATES (modelExamples w) m)
                                  (clarifications b))) = true ->
    reframe_outcome w b
      (Some (ok (set "error" (JStr "Automatic restructuring unavailable")
                     (formatForModel (clock w) m raw raw))),
       [CallIsImageGenerationRequest raw;
        CallCreate (chat_request_for raw (MODEL_TEMPLATES (modelExamples w) m)
                                     (clarifications b));
        CallFormatForModel m raw raw]).

(** Users and saved prompts: the two in-memory maps, the passport
    callbacks and the saved-prompts routes (server.js, lines 90-122 and
    621-652). *)
Module Accounts.

Record user := {
  id : string;
  name : string;
  email : string;
  avatar : string
}.

(** The Google profile handed to the strategy callback: [emails] and
    [photos] hold the [value] of each entry. *)
Record profile := {
  profile_id : string;
  displayName : string;
  emails : list string;
  photos : list string
}.

(** A JavaScript [Map] with string keys, in insertion order. *)
Definition Map (V : Type) : Type := list (string * V).

Fixpoint map_get {V} (k : string) (m : Map V) : option V :=
  match m with
  | [] => None
  | (k', v) :: rest => if String.eqb k k' then Some v else map_get k rest
  end.

Definition map_has {V} (k : string) (m : Map V) : bool :=
  match map_get k m with Some _ => true | None => false end.

Fixpoint map_set {V} (k : string) (v : V) (m : Map V) : Map V :=
  match m with
  | [] => [(k, v)]
  | (k', v') :: rest =>
      if String.eqb k k' then (k', v) :: rest else (k', v') :: map_set k v rest
  end.

(** The strategy callback: [profile.emails[0].value] and
    [profile.photos[0].value] throw when there is no first entry ([None]);
    otherwise the user is stored under its id and handed to [done]. *)
Definition verify (users : Map user) (p : profile) : option (user * Map user) :=
  match emails p, photos p with
  | e :: _, ph :: _ =>
      let u := {| id := profile_id p; name := displayName p;
                  email := e; avatar := ph |} in
      Some (u, map_set (profile_id p) u users)
  | _, _ => None
  end.

Definition serializeUser (u : user) : string := id u.

(** [users.get(id)]; [None] is [undefined]. *)
Definition deserializeUser (users : Map user) (uid : string) : option user :=
  map_get uid users.

(** [{ ...fields }] written over the fields already there, in order.
    (A JavaScript object lists integer-like keys first; the order of the
    members is not used below, only what [get] finds.) *)
Definition spread (fields acc : list (string * json)) : list (string * json) :=
  fold_left (fun o kv => assign (fst kv) (snd kv) o) fields acc.

Inductive prompts_reply :=
| PromptsError (http_status : nat) (error : string)
| Prompts (userPrompts : list json).

(** [app.get('/api/prompts')]; [session] is [req.user] when
    [req.isAuthenticated()]. *)
Definition list_prompts (savedPrompts : Map (list json)) (session : option user)
    : prompts_reply :=
  match session with
  | None => PromptsError 401 "Authentication required"
  | Some u =>
      Prompts (match map_get (id u) savedPrompts with
               | Some userPrompts => userPrompts
               | None => []
               end)
  end.

Inductive save_reply :=
| SaveError (http_status : nat) (error : string)
| Saved (prompt : json).

(** [app.post('/api/prompts/save')]: [now_ms] is [Date.now().toString()],
    [now_iso] is [new Date().toISOString()], [fields] are the entries of
    [req.body].  The reply [Saved prompt] is [{ success: true, prompt }]. *)
Definition save_prompt (savedPrompts : Map (list json)) (session : option user)
    (now_ms now_iso : string) (fields : list (string * json))
    : save_reply * Map (list json) :=
  match session with
  | None => (SaveError 401 "Authentication required", savedPrompts)
  | Some u =>
      let userId := id u in
      let prompt :=
        JObj (assign "savedAt" (JStr now_iso)
                (spread fields [("id", JStr now_ms)])) in
      let savedPrompts :=
        if negb (map_has userId savedPrompts) then map_set userId [] savedPrompts
        else savedPrompts in
      let userPrompts :=
        match map_get userId savedPrompts with
        | Some l => l
        | None => []
        end in
      (Saved prompt, map_set userId (userPrompts ++ [prompt]) savedPrompts)
  end.

End Accounts.

(* ================================================================== *)
(** ** Concrete runs *)
(* ================================================================== *)

Example detect_some :
  map type (questions (detectAmbiguity "Give me some ideas")) = ["vague_quantifier"].
Proof. reflexivity. Qed.

Example detect_awesome :
  questions (detectAmbiguity "That is awesome") = [].
Proof. reflexivity. Qed.

Example detect_explain :
  map type (questions (detectAmbiguity "Explain photosynthesis")) = ["undefined_scope"].
Proof. reflexivity. Qed.

Example detect_explain_how :
  questions (detectAmbiguity "Explain how plants grow") = [].
Proof. reflexivity. Qed.

Example detect_explain_however :
  questions (detectAmbiguity "Explain however you like") = [].
Proof. reflexivity. Qed.

Example detect_all_three :
  detectAmbiguity "tell me about a b c d e f g some h"
  = {| hasAmbiguity := true;
       questions := [vague_quantifier_finding; undefined_scope_finding;
                     missing_format_finding] |}.
Proof. reflexivity. Qed.

Example detect_double_spaces :
  map type (questions (detectAmbiguity "a          b")) = ["missing_format"].
Proof. reflexivity. Qed.

Example split_keeps_empty_pieces :
  split space "a  b " = ["a"; EmptyString; "b"; EmptyString].
Proof. reflexivity. Qed.

Example trim_both_ends :
  trim (String (ascii_of_nat 9) " two words  ") = "two words".
Proof. reflexivity. Qed.

Example extract_stops_at_heading :
  extractSystemPrompt (text ["You are a tutor."; blank; "# Task"; "Explain recursion."])
  = "You are a tutor.".
Proof. reflexivity. Qed.

Example extract_heading_on_first_line :
  extractSystemPrompt (text ["# Title"; "body"; "## Sub"; "more"])
  = text ["# Title"; "body"].
Proof. reflexivity. Qed.

Example extract_blank_before_heading :
  extractSystemPrompt (text [blank; "# Title"; "body"])
  = text [blank; "# Title"; "body"].
Proof. reflexivity. Qed.

Example reframe_full_result :
  reframe world_answering (poem_request "claude")
  = (Some (ok (formatForModel "2026-01-01T00:00:00.000Z" "claude"
                              "<task>Write a poem</task>" "Write a poem")),
     [CallIsImageGenerationRequest "Write a poem";
      CallCreate (chat_request_for "Write a poem"
                    (Template (claude_systemPrompt sample_examples)) None);
      CallFormatForModel "claude" "<task>Write a poem</task>" "Write a poem"]).
Proof. reflexivity. Qed.

Example reframe_image_template :
  content
    (hd {| role := "none"; content := None |}
        (messages (chat_request_for "Draw a poster of a dragon"
                     (Template (claude_systemPrompt sample_examples)) None)))
  = Some IMAGE_GENERATION_SYSTEM_PROMPT.
Proof. reflexivity. Qed.

Example reframe_clarifications :
  content
    (last (messages (chat_request_for "Write a poem" Inherited
                       (Some [("tone", "formal"); ("length", "short")])))
          {| role := "none"; content := None |})
  = Some (text ["Original prompt: Write a poem"; blank;
                "Clarifications provided by user:";
                "- tone: formal"; "- length: short"; blank]).
Proof. reflexivity. Qed.

(* ================================================================== *)
(** ** Facts about strings *)
(* ================================================================== *)

Section StringFacts.

Local Open Scope string_scope.

Lemma append_nil_r (s : string) : s ++ EmptyString = s.
Proof. induction s as [|c s IH]; simpl; [reflexivity | now rewrite IH]. Qed.

Lemma toLowerCase_append (a b : string) :
  toLowerCase (a ++ b) = toLowerCase a ++ toLowerCase b.
Proof. induction a as [|x a IH]; simpl; [reflexivity | now rewrite IH]. Qed.

Lemma prefix_iff (k s : string) :
  String.prefix k s = true <-> exists post, s = k ++ post.
Proof.
  revert s; induction k as [|a k IH]; intros s; simpl.
  - destruct s; split; intros; try reflexivity; eexists; reflexivity.
  - destruct s as [|b s]; simpl.
    + split; [discriminate | intros [post H]; discriminate].
    + destruct (ascii_dec a b) as [->|Hne].
      * rewrite IH. split; intros [post H]; exists post.
        -- now rewrite H.
        -- now inversion H.
      * split; [discriminate | intros [post H]; inversion H; congruence].
Qed.

Lemma startsWith_iff (s p : string) :
  startsWith s p = true <-> exists post, s = p ++ post.
Proof. apply prefix_iff. Qed.

Lemma includes_iff (s k : string) : includes s k = true <-> occurs_in k s.
Proof.
  unfold occurs_in.
  induction s as [|c s IH]; cbn [includes].
  - rewrite orb_false_r, startsWith_iff. split.
    + intros [post H]. exists EmptyString, post. exact H.
    + intros [pre [post H]]. destruct pre; simpl in H.
      * exists post. exact H.
      * discriminate.
  - rewrite orb_true_iff, startsWith_iff, IH. split.
    + intros [[post H] | [pre [post H]]].
      * exists EmptyString, post. exact H.
      * exists (String c pre), post. simpl. now rewrite H.
    + intros [pre [post H]]. destruct pre as [|x pre]; simpl in H.
      * left. exists post. exact H.
      * right. inversion H. exists pre, post. reflexivity.
Qed.

Lemma last_char_append (a : string) (c : ascii) (b : string) :
  last_char (a ++ String c b) = last_char (String c b).
Proof.
  induction a as [|x a IH]; [reflexivity|].
  change (String x a ++ String c b) with (String x (a ++ String c b)).
  destruct a as [|y a]; simpl in *; exact IH.
Qed.


Lemma last_char_some (s : string) :
  forall x, exists c, last_char (String x s) = Some c.
Proof.
  induction s as [|y s IH]; intros x.
  - exists x. reflexivity.
  - destruct (IH y) as [c Hc]. exists c.
    change (last_char (String x (String y s))) with (last_char (String y s)).
    exact Hc.
Qed.

Lemma last_char_cons (x : ascii) (s : string) :
  last_char (String x s) = match last_char s with Some c => Some c | None => Some x end.
Proof.
  destruct s as [|y s]; [reflexivity|].
  change (last_char (String x (String y s))) with (last_char (String y s)).
  destruct (last_char_some s y) as [c Hc]. now rewrite Hc.
Qed.

Lemma prev_after_append (prev : option ascii) (a b : string) :
  prev_after prev (a ++ b) = prev_after (prev_after prev a) b.
Proof.
  unfold prev_after. destruct b as [|c b].
  - rewrite append_nil_r. simpl. destruct (last_char a); reflexivity.
  - rewrite last_char_append. rewrite last_char_cons.
    destruct (last_char b); reflexivity.
Qed.


(** Case mapping, by enumeration of the 256 code units. *)

Ltac each_code_unit x :=
  destruct x as [[] [] [] [] [] [] [] []]; vm_compute; reflexivity.

Lemma lower_canonicalize (x : ascii) : lower (canonicalize x) = lower x.
Proof. each_code_unit x. Qed.

Lemma canonicalize_lower (x : ascii) : canonicalize (lower x) = canonicalize x.
Proof. each_code_unit x. Qed.

Lemma isWordChar_lower (x : ascii) : isWordChar (lower x) = isWordChar x.
Proof. each_code_unit x. Qed.

Lemma char_eq_icase (x c : ascii) :
  char_eq true x c = true <-> lower x = lower c.
Proof.
  unfold char_eq. rewrite Ascii.eqb_eq. split; intros H.
  - rewrite <- (lower_canonicalize x), <- (lower_canonicalize c). now rewrite H.
  - rewrite <- (canonicalize_lower x), <- (canonicalize_lower c). now rewrite H.
Qed.

End StringFacts.

(* ================================================================== *)
(** ** The matcher computes the declarative reading *)
(* ================================================================== *)

Section MatcherAdequacy.

Local Open Scope string_scope.
Variable icase : bool.

Lemma last_char_cons_nonempty (x y : ascii) (run : string) :
  last_char (String x (String y run)) = last_char (String y run).
Proof. reflexivity. Qed.

Lemma plus_class_iff (p : ascii -> bool) (rest : string) (k : cont) :
  plus_class p rest k = true <->
  exists run rest', run <> EmptyString /\ all_chars p run = true /\
                    rest = run ++ rest' /\ k (last_char run) rest' = true.
Proof.
  induction rest as [|x xs IH]; simpl.
  - split; [discriminate|].
    intros (run & rest' & Hne & _ & Heq & _).
    destruct run; [contradiction | discriminate].
  - destruct (p x) eqn:Hp.
    + rewrite orb_true_iff, IH. split.
      * intros [(run & rest' & Hne & Hall & Heq & Hk) | Hk].
        -- destruct run as [|y run]; [contradiction|].
           exists (String x (String y run)), rest'.
           split; [discriminate|]. split; [|split].
           ++ change (p x && all_chars p (String y run) = true). now rewrite Hp.
           ++ rewrite Heq. reflexivity.
           ++ rewrite last_char_cons_nonempty. exact Hk.
        -- exists (String x EmptyString), xs.
           split; [discriminate|]. split; [|split].
           ++ simpl. now rewrite Hp.
           ++ reflexivity.
           ++ exact Hk.
      * intros (run & rest' & Hne & Hall & Heq & Hk).
        destruct run as [|y run]; [contradiction|].
        simpl in Heq. inversion Heq; subst y. clear Heq.
        simpl in Hall. rewrite Hp in Hall. simpl in Hall.
        destruct run as [|z run].
        -- right. exact Hk.
        -- left. exists (String z run), rest'.
           split; [discriminate|]. split; [exact Hall|]. split; [reflexivity|].
           rewrite last_char_cons_nonempty in Hk. exact Hk.
    + split; [discriminate|].
      intros (run & rest' & Hne & Hall & Heq & _).
      destruct run as [|y run]; [contradiction|].
      simpl in Heq. inversion Heq; subst y.
      simpl in Hall. rewrite Hp in Hall. discriminate.
Qed.

Lemma rmatch_iff (r : regex) :
  forall prev rest (k : cont),
    rmatch icase r prev rest k = true <->
    exists p m, matches icase r prev rest p m /\ k p m = true.
Proof.
  induction r as [|c|r1 IH1 r2 IH2|r1 IH1 r2 IH2| |cl|r1 IH1]; intros prev rest k; simpl.
  - split.
    + intros H. exists prev, rest. auto.
    + intros (p & m & [-> ->] & H). exact H.
  - destruct rest as [|x xs].
    + split; [discriminate|]. intros (p & m & (x & H & _) & _). discriminate.
    + destruct (char_eq icase x c) eqn:E.
      * split.
        -- intros H. exists (Some x), xs. split; [|exact H]. exists x. auto.
        -- intros (p & m & (y & Heq & _ & Hp) & H). inversion Heq; subst. exact H.
      * split; [discriminate|].
        intros (p & m & (y & Heq & Hc & _) & _). inversion Heq; subst. congruence.
  - rewrite IH1. split.
    + intros (p & m & H1 & H2). apply IH2 in H2. destruct H2 as (p' & m' & H2 & Hk).
      exists p', m'. split; [|exact Hk]. exists p, m. auto.
    + intros (p' & m' & (p & m & H1 & H2) & Hk).
      exists p, m. split; [exact H1|]. apply IH2. exists p', m'. auto.
  - rewrite orb_true_iff, IH1, IH2. split.
    + intros [(p & m & H & Hk) | (p & m & H & Hk)]; exists p, m; auto.
    + intros (p & m & [H | H] & Hk); [left | right]; exists p, m; auto.
  - destruct (at_boundary prev rest) eqn:E.
    + split.
      * intros H. exists prev, rest. auto.
      * intros (p & m & (_ & -> & ->) & H). exact H.
    + split; [discriminate|]. intros (p & m & (H & _) & _). discriminate.
  - rewrite plus_class_iff. split.
    + intros (run & rest' & Hne & Hall & Heq & Hk).
      exists (last_char run), rest'. split; [|exact Hk]. exists run. auto.
    + intros (p & m & (run & Hne & Hall & Heq & ->) & Hk).
      exists run, m. auto.
  - destruct (rmatch icase r1 prev rest (fun _ _ => true)) eqn:E.
    + split; [discriminate|].
      intros (p & m & (Hno & _) & _). exfalso. apply Hno.
      apply IH1 in E. destruct E as (p' & m' & H & _). exists p', m'. exact H.
    + split.
      * intros H. exists prev, rest. split; [|exact H]. split; [|auto].
        intros (p' & m' & Hm).
        assert (rmatch icase r1 prev rest (fun _ _ => true) = true) as Ht
          by (apply IH1; exists p', m'; auto).
        congruence.
      * intros (p & m & (_ & -> & ->) & H). exact H.
Qed.

Lemma search_iff (r : regex) (rest : string) :
  forall prev,
    search icase r prev rest = true <->
    exists pre post p m,
      rest = pre ++ post /\ matches icase r (prev_after prev pre) post p m.
Proof.
  induction rest as [|x xs IH]; intros prev; simpl.
  - rewrite orb_false_r, rmatch_iff. split.
    + intros (p & m & H & _). exists EmptyString, EmptyString, p, m. auto.
    + intros (pre & post & p & m & Heq & H).
      destruct pre; [|discriminate]. simpl in Heq. subst post.
      exists p, m. auto.
  - rewrite orb_true_iff, rmatch_iff, IH. split.
    + intros [(p & m & H & _) | (pre & post & p & m & Heq & H)].
      * exists EmptyString, (String x xs), p, m. auto.
      * exists (String x pre), post, p, m. split; [simpl; now rewrite Heq|].
        change (String x pre) with (String x EmptyString ++ pre).
        rewrite prev_after_append. exact H.
    + intros (pre & post & p & m & Heq & H).
      destruct pre as [|y pre]; simpl in Heq.
      * left. subst post. exists p, m. auto.
      * right. inversion Heq; subst y. exists pre, post, p, m. split; [reflexivity|].
        change (String x pre) with (String x EmptyString ++ pre) in H.
        rewrite prev_after_append in H. exact H.
Qed.

End MatcherAdequacy.

(* ================================================================== *)
(** ** What the three patterns of detectAmbiguity accept *)
(* ================================================================== *)

Section Patterns.

Local Open Scope string_scope.

Lemma toLowerCase_empty (s : string) : toLowerCase s = EmptyString -> s = EmptyString.
Proof. destruct s; [reflexivity | discriminate]. Qed.

Lemma prev_after_None (s : string) : prev_after None s = last_char s.
Proof. unfold prev_after. destruct (last_char s); reflexivity. Qed.

Lemma prev_after_cons (prev : option ascii) (x : ascii) (s : string) :
  prev_after prev (String x s) = prev_after (Some x) s.
Proof.
  change (String x s) with (String x EmptyString ++ s).
  now rewrite prev_after_append.
Qed.

Lemma lit_matches (w : string) :
  forall prev rest p m,
    matches true (lit w) prev rest p m <->
    exists mid, rest = mid ++ m /\ toLowerCase mid = toLowerCase w /\
                p = prev_after prev mid.
Proof.
  induction w as [|c w IH]; intros prev rest p m; simpl.
  - split.
    + intros [-> ->]. exists EmptyString. auto.
    + intros (mid & Heq & Hl & Hp). apply toLowerCase_empty in Hl. subst mid.
      simpl in Heq. auto.
  - split.
    + intros (p1 & m1 & (x & Heq & Hc & ->) & H).
      apply IH in H. destruct H as (mid & Hm & Hl & Hp).
      exists (String x mid). split; [|split].
      * simpl. now rewrite Heq, Hm.
      * simpl. apply char_eq_icase in Hc. now rewrite Hc, Hl.
      * now rewrite prev_after_cons.
    + intros (mid & Heq & Hl & Hp).
      destruct mid as [|x mid]; [discriminate|].
      simpl in Hl. inversion Hl as [[Hx Hrest]].
      exists (Some x), (mid ++ m). split.
      * exists x. split; [exact Heq|]. split; [|reflexivity].
        now apply char_eq_icase.
      * apply IH. exists mid. split; [reflexivity|]. split; [exact Hrest|].
        rewrite Hp. apply prev_after_cons.
Qed.

Lemma any_of_matches (icase : bool) (ws : list string) :
  forall w prev rest p m,
    matches icase (any_of w ws) prev rest p m <->
    exists x, In x (w :: ws) /\ matches icase (lit x) prev rest p m.
Proof.
  induction ws as [|w' ws IH]; intros w prev rest p m.
  - simpl. split.
    + intros H. exists w. auto.
    + intros (x & [<- | []] & H). exact H.
  - cbn [any_of matches]. rewrite IH. split.
    + intros [H | (x & Hin & H)].
      * exists w. split; [now left | exact H].
      * exists x. split; [now right | exact H].
    + intros (x & [<- | Hin] & H).
      * now left.
      * right. exists x. auto.
Qed.

Lemma first_char_toLowerCase (s : string) :
  opt_word (first_char (toLowerCase s)) = opt_word (first_char s).
Proof. destruct s as [|c s]; [reflexivity | apply isWordChar_lower]. Qed.

Lemma last_char_toLowerCase (s : string) :
  opt_word (last_char (toLowerCase s)) = opt_word (last_char s).
Proof.
  induction s as [|c s IH]; [reflexivity|].
  change (toLowerCase (String c s)) with (String (lower c) (toLowerCase s)).
  rewrite !last_char_cons.
  destruct s as [|d s].
  - simpl. apply isWordChar_lower.
  - destruct (last_char_some s d) as [e He].
    destruct (last_char_some (toLowerCase s) (lower d)) as [e' He'].
    change (toLowerCase (String d s)) with (String (lower d) (toLowerCase s)) in *.
    rewrite He, He' in *. exact IH.
Qed.

Lemma first_char_append (a b : string) :
  opt_word (first_char a) = true -> opt_word (first_char (a ++ b)) = true.
Proof. destruct a; [discriminate | auto]. Qed.

Lemma prev_after_word (prev : option ascii) (s : string) :
  opt_word (last_char s) = true -> opt_word (prev_after prev s) = true.
Proof. unfold prev_after. destruct (last_char s); [auto | discriminate]. Qed.

Lemma edges_of_occurrence (x mid : string) :
  edge_word x = true -> toLowerCase mid = x ->
  opt_word (first_char mid) = true /\ opt_word (last_char mid) = true.
Proof.
  unfold edge_word. rewrite !andb_true_iff. intros [[Hf Hl] _] <-.
  now rewrite first_char_toLowerCase in Hf; rewrite last_char_toLowerCase in Hl.
Qed.

Lemma word_regex_test (w : string) (ws : list string) (g : bool) (s : string) :
  forallb edge_word (w :: ws) = true ->
  test {| source := Seq WordBoundary (Seq (any_of w ws) WordBoundary);
          ignoreCase := true; global := g |} s = true <->
  exists x, In x (w :: ws) /\ whole_word x s.
Proof.
  intros Hedge. rewrite forallb_forall in Hedge.
  unfold test. cbn [ignoreCase source]. rewrite search_iff. split.
  - intros (pre & post & p & m & Hs & H).
    cbn [matches] in H.
    destruct H as (p1 & m1 & (Hb1 & -> & ->) & p2 & m2 & Hany & Hb2 & -> & ->).
    apply any_of_matches in Hany. destruct Hany as (x & Hin & Hlit).
    apply lit_matches in Hlit. destruct Hlit as (mid & Hpost & Hl & ->).
    pose proof (Hedge x Hin) as Hx.
    assert (toLowerCase mid = x) as Hmid.
    { unfold edge_word in Hx. rewrite !andb_true_iff in Hx.
      destruct Hx as [_ Hx]. apply String.eqb_eq in Hx. congruence. }
    destruct (edges_of_occurrence x mid Hx Hmid) as [Hf Hlast].
    exists x. split; [exact Hin|]. exists pre, mid, m2. split; [|split; [|split]].
    + now rewrite Hs, Hpost.
    + exact Hmid.
    + unfold at_boundary in Hb1. rewrite Hpost in Hb1.
      rewrite (first_char_append mid m2 Hf) in Hb1.
      rewrite prev_after_None in Hb1.
      destruct (opt_word (last_char pre)); [discriminate | reflexivity].
    + unfold at_boundary in Hb2.
      rewrite (prev_after_word _ mid Hlast) in Hb2.
      destruct (opt_word (first_char m2)); [discriminate | reflexivity].
  - intros (x & Hin & pre & mid & post & Hs & Hmid & Hpre & Hpost).
    pose proof (Hedge x Hin) as Hx.
    destruct (edges_of_occurrence x mid Hx Hmid) as [Hf Hlast].
    exists pre, (mid ++ post), (prev_after (prev_after None pre) mid), post.
    split; [exact Hs|]. cbn [matches].
    exists (prev_after None pre), (mid ++ post). split.
    + split; [|auto]. unfold at_boundary.
      rewrite (first_char_append mid post Hf), prev_after_None, Hpre. reflexivity.
    + exists (prev_after (prev_after None pre) mid), post. split.
      * apply any_of_matches. exists x. split; [exact Hin|].
        apply lit_matches. exists mid. split; [reflexivity|]. split; [|reflexivity].
        unfold edge_word in Hx. rewrite !andb_true_iff in Hx.
        destruct Hx as [_ Hx]. apply String.eqb_eq in Hx. congruence.
      * split; [|auto]. unfold at_boundary.
        rewrite (prev_after_word _ mid Hlast), Hpost. reflexivity.
Qed.

End Patterns.

Section BroadTopics.

Local Open Scope string_scope.




End BroadTopics.

(* ================================================================== *)
(** ** Ambiguity detector: the claims *)
(* ================================================================== *)

Section Detector.

(** The findings are those of the rules that fire, in the order of the
    rules; [slice(0, 3)] keeps all of them. *)
Lemma detect_questions (prompt : string) :
  questions (detectAmbiguity prompt) =
    (if test vagueQuantifiers prompt then [vague_quantifier_finding] else [])
    ++ (if test broadTopics prompt && (String.length prompt <? 50)
        then [undefined_scope_finding] else [])
    ++ (if negb (test formatKeywords prompt)
           && (10 <? List.length (split space prompt))
        then [missing_format_finding] else []).
Proof.
  unfold detectAmbiguity, push_if. cbn [questions].
  destruct (test vagueQuantifiers prompt);
    destruct (test broadTopics prompt && (String.length prompt <? 50));
    destruct (negb (test formatKeywords prompt)
              && (10 <? List.length (split space prompt)));
    reflexivity.
Qed.

Lemma detect_hasAmbiguity (prompt : string) :
  hasAmbiguity (detectAmbiguity prompt) =
    negb (match questions (detectAmbiguity prompt) with [] => true | _ => false end).
Proof.
  unfold detectAmbiguity, push_if. cbn [questions hasAmbiguity].
  destruct (test vagueQuantifiers prompt);
    destruct (test broadTopics prompt && (String.length prompt <? 50));
    destruct (negb (test formatKeywords prompt)
              && (10 <? List.length (split space prompt)));
    reflexivity.
Qed.

Lemma vagueQuantifiers_test (prompt : string) :
  test vagueQuantifiers prompt = true <->
  exists w, In w ["some"; "few"; "many"; "several"; "a bit"; "lots of"]
            /\ whole_word w prompt.
Proof. apply word_regex_test. reflexivity. Qed.

Lemma formatKeywords_test (prompt : string) :
  test formatKeywords prompt = true <->
  exists w, In w ["list"; "table"; "summary"; "paragraph"; "code"; "json"; "steps"]
            /\ whole_word w prompt.
Proof. apply word_regex_test. reflexivity. Qed.

End Detector.

(** C5.  Every prompt that contains some, few, many, several, a bit or
    lots of as a whole word (in any case, with no word character next to
    it) gets a vague_quantifier finding, with the question
    How many examples or items would you like? and the options
    1-2, 3-5, 5-10, More than 10. *)
Theorem C5_vague_quantifier_reported (prompt w : string) :
  In w ["some"; "few"; "many"; "several"; "a bit"; "lots of"] ->
  whole_word w prompt ->
  In {| type := "vague_quantifier";
        question := "How many examples or items would you like?";
        options := ["1-2"; "3-5"; "5-10"; "More than 10"] |}
     (questions (detectAmbiguity prompt)).
Proof.
  intros Hin Hword.
  rewrite detect_questions.
  assert (test vagueQuantifiers prompt = true) as ->
    by (apply vagueQuantifiers_test; exists w; auto).
  apply in_or_app. left. left. reflexivity.
Qed.

Lemma C5_witness :
  In {| type := "vague_quantifier";
        question := "How many examples or items would you like?";
        options := ["1-2"; "3-5"; "5-10"; "More than 10"] |}
     (questions (detectAmbiguity "Give me LOTS OF ideas, please")).
Proof.
  apply (C5_vague_quantifier_reported "Give me LOTS OF ideas, please" "lots of").
  - simpl. tauto.
  - exists "Give me ", "LOTS OF", " ideas, please".
    repeat split; reflexivity.
Defined.




(** C7 as stated fails: eleven tokens separated by line breaks, none of
    the format words anywhere in the text, and no missing_format finding. *)
Lemma C7_counterexample :
  let prompt :=
    join newline ["Plan"; "a"; "trip"; "to"; "Rome"; "with"; "museums";
                  "food"; "walks"; "and"; "rest"] in
  whitespace_tokens prompt > 10 /\
  (forall w, In w ["list"; "table"; "summary"; "paragraph"; "code"; "json"; "steps"] ->
             includes (toLowerCase prompt) w = false) /\
  ~ In {| type := "missing_format";
          question := "How should the output be formatted?";
          options := ["Bullet points"; "Paragraph"; "Step-by-step"; "Table"] |}
       (questions (detectAmbiguity prompt)).
Proof.
  cbv zeta. split; [|split].
  - vm_compute. lia.
  - intros w Hw. simpl in Hw.
    destruct Hw as [<-|[<-|[<-|[<-|[<-|[<-|[<-|[]]]]]]]]; vm_compute; reflexivity.
  - vm_compute. tauto.
Qed.

(** C7, amended.  Every prompt that [split(' ')] cuts into more than 10
    pieces (pieces between single space characters, empty ones counted) and
    that contains none of list, table, summary, paragraph, code, json,
    steps as a whole word, in any case, gets a missing_format finding. *)
Theorem C7_missing_format_reported (prompt : string) :
  List.length (split space prompt) > 10 ->
  (forall w, In w ["list"; "table"; "summary"; "paragraph"; "code"; "json"; "steps"] ->
             ~ whole_word w prompt) ->
  In {| type := "missing_format";
        question := "How should the output be formatted?";
        options := ["Bullet points"; "Paragraph"; "Step-by-step"; "Table"] |}
     (questions (detectAmbiguity prompt)).
Proof.
  intros Hlen Hnone.
  rewrite detect_questions.
  assert (test formatKeywords prompt = false) as ->.
  { destruct (test formatKeywords prompt) eqn:E; [|reflexivity].
    apply formatKeywords_test in E. destruct E as (w & Hin & Hw).
    exfalso. exact (Hnone w Hin Hw). }
  apply Nat.ltb_lt in Hlen. rewrite Hlen. cbn [negb andb].
  apply in_or_app. right. apply in_or_app. right. left. reflexivity.
Qed.

Lemma C7_witness :
  In {| type := "missing_format";
        question := "How should the output be formatted?";
        options := ["Bullet points"; "Paragraph"; "Step-by-step"; "Table"] |}
     (questions (detectAmbiguity
        "Plan a trip to Rome with museums food walks and some rest")).
Proof.
  apply (C7_missing_format_reported
           "Plan a trip to Rome with museums food walks and some rest").
  - vm_compute. lia.
  - intros w Hw Hword.
    assert (test formatKeywords
              "Plan a trip to Rome with museums food walks and some rest" = true) as H
      by (apply formatKeywords_test; exists w; auto).
    vm_compute in H. discriminate H.
Defined.

(** C10.  For every prompt, hasAmbiguity is true exactly when questions is
    not empty, the types of the findings follow the order vague_quantifier,
    undefined_scope, missing_format, and no type occurs twice. *)
Theorem C10_detect_shape (prompt : string) :
  (hasAmbiguity (detectAmbiguity prompt) = true <->
   questions (detectAmbiguity prompt) <> []) /\
  subsequence (map type (questions (detectAmbiguity prompt)))
              ["vague_quantifier"; "undefined_scope"; "missing_format"] = true /\
  NoDup (map type (questions (detectAmbiguity prompt))).
Proof.
  rewrite detect_hasAmbiguity, detect_questions.
  destruct (test vagueQuantifiers prompt);
    destruct (test broadTopics prompt && (String.length prompt <? 50));
    destruct (negb (test formatKeywords prompt)
              && (10 <? List.length (split space prompt)));
    cbn [app map type vague_quantifier_finding undefined_scope_finding
         missing_format_finding negb];
    (split; [split; [discriminate + (intros _; discriminate) | intros H; try reflexivity; now elim H]
            | split; [reflexivity
                     | repeat constructor; simpl; intros H;
                       repeat (destruct H as [H|H]; [discriminate H|]); exact H]]).
Qed.

(* ================================================================== *)
(** ** Intent classifier: the claim *)
(* ================================================================== *)

Section Classifier.

Lemma some_includes_iff (lowerPrompt : string) (keywords : list string) :
  some (fun keyword => includes lowerPrompt keyword) keywords = true <->
  exists k, In k keywords /\ occurs_in k lowerPrompt.
Proof.
  unfold some. rewrite existsb_exists.
  split; intros (k & Hin & H); exists k; split; auto; now apply includes_iff.
Qed.

End Classifier.

(** C8.  isImageGenerationRequest is true exactly when the lower-cased
    prompt has an image keyword as a substring and also a creation verb or
    a quality descriptor as a substring; it is true for
    Create a stunning vibrant poster of a dragon and false for
    Explain how TCP congestion control works. *)
Theorem C8_image_request_rule :
  (forall prompt,
     isImageGenerationRequest prompt = true <->
     (exists k, In k ["image"; "picture"; "photo"; "visual"; "graphic";
                      "illustration"; "artwork"; "thumbnail"; "poster"; "banner"]
                /\ occurs_in k (toLowerCase prompt))
     /\ ((exists v, In v ["create"; "generate"; "make"; "design"; "draw";
                          "produce"; "craft"]
                    /\ occurs_in v (toLowerCase prompt))
         \/ (exists q, In q ["high quality"; "vibrant"; "eye-catching"; "ultra";
                             "stunning"; "dramatic"; "cinematic"]
                       /\ occurs_in q (toLowerCase prompt))))
  /\ isImageGenerationRequest "Create a stunning vibrant poster of a dragon" = true
  /\ isImageGenerationRequest "Explain how TCP congestion control works" = false.
Proof.
  split; [|split; reflexivity].
  intros prompt. unfold isImageGenerationRequest. cbv zeta.
  rewrite andb_true_iff, orb_true_iff, !some_includes_iff.
  reflexivity.
Qed.

(* ================================================================== *)
(** ** Response formatter: the claims *)
(* ================================================================== *)

Section Formatter.

Lemma split_not_nil (sep : ascii) (s : string) : split sep s <> [].
Proof.
  destruct s as [|c s]; simpl; [discriminate|].
  destruct (Ascii.eqb c sep); [discriminate|].
  destruct (split sep s); discriminate.
Qed.

Lemma join_cons (sep x : string) (l : list string) :
  l <> [] -> join sep (x :: l) = (x ++ sep ++ join sep l)%string.
Proof. destruct l; [contradiction | reflexivity]. Qed.

(** Joining the lines again gives the text back. *)
Lemma join_split (s : string) :
  join newline (split (ascii_of_nat 10) s) = s.
Proof.
  induction s as [|c s IH]; [reflexivity|].
  cbn [split]. destruct (Ascii.eqb c (ascii_of_nat 10)) eqn:E.
  - apply Ascii.eqb_eq in E. subst c.
    rewrite join_cons by apply split_not_nil. now rewrite IH.
  - pose proof (split_not_nil (ascii_of_nat 10) s) as Hne.
    destruct (split (ascii_of_nat 10) s) as [|h t]; [contradiction|].
    destruct t as [|h' t].
    + simpl in *. now rewrite IH.
    + rewrite join_cons in * by discriminate.
      simpl. now rewrite <- IH.
Qed.

(** The loop of extractSystemPrompt stops where the specification puts the
    boundary, and keeps every line when there is none. *)
Lemma scan_lines_boundary (lines : list string) :
  forall seen,
    scan_lines lines seen =
      match before_boundary lines seen with
      | Some kept => kept
      | None => seen ++ lines
      end.
Proof.
  induction lines as [|line rest IH]; intros seen; simpl.
  - now rewrite app_nil_r.
  - unfold is_heading.
    destruct (startsWith (trim line) hash && (0 <? List.length seen)); [reflexivity|].
    rewrite IH. destruct (before_boundary rest (seen ++ [line])); [reflexivity|].
    now rewrite <- app_assoc.
Qed.

Lemma extractSystemPrompt_stated (restructured : string) :
  extractSystemPrompt restructured =
    or_else (trim (stated_system_content restructured)) restructured.
Proof.
  unfold extractSystemPrompt, stated_system_content. cbv zeta.
  rewrite scan_lines_boundary.
  destruct (before_boundary (split (ascii_of_nat 10) restructured) []); [reflexivity|].
  cbn [app]. now rewrite join_split.
Qed.

Lemma formatForModel_fields (timestamp m restructured original : string) :
  let j := formatForModel timestamp m restructured original in
  get_path ["model"] j = Some (JStr m) /\
  get_path ["original_prompt"] j = Some (JStr original) /\
  get_path ["reframed"; "raw"] j = Some (JStr restructured) /\
  get_path ["reframed"; "api_ready"] j = Some (api_ready m restructured) /\
  get_path ["metadata"; "timestamp"] j = Some (JStr timestamp) /\
  get_path ["metadata"; "original_length"] j
    = Some (JNum (Z.of_nat (String.length original))) /\
  get_path ["metadata"; "reframed_length"] j
    = Some (JNum (Z.of_nat (String.length restructured))) /\
  get_path ["error"] j = None.
Proof. cbv zeta. repeat split. Qed.

End Formatter.

(** C3 as stated fails.  With a boundary, the white space that ends the
    text before it is not part of the system content; without a boundary,
    a text with white space around it is not used in full; and when only
    a blank line precedes the boundary, the full text is the system
    content although a boundary exists. *)
Lemma C3_counterexample :
  let with_heading :=
    join newline ["You are a tutor."; blank; "# Task"; "Explain recursion."] in
  let without_heading := "Summarize this article. " in
  let blank_then_heading := join newline [blank; "# Title"; "Body"] in
  let messages_of restructured :=
    get_path ["reframed"; "api_ready"; "messages"]
             (formatForModel "2026-01-01T00:00:00.000Z" "chatgpt" restructured
                             restructured) in
  messages_of with_heading
    <> Some (JArr [message "system" (stated_system_content with_heading);
                   message "user" with_heading]) /\
  stated_system_content without_heading = without_heading /\
  messages_of without_heading
    <> Some (JArr [message "system" without_heading;
                   message "user" without_heading]) /\
  stated_system_content blank_then_heading = EmptyString /\
  messages_of blank_then_heading
    = Some (JArr [message "system" blank_then_heading;
                  message "user" blank_then_heading]).
Proof.
  cbv zeta. split; [|split; [|split; [|split]]].
  - vm_compute. discriminate.
  - reflexivity.
  - vm_compute. discriminate.
  - reflexivity.
  - reflexivity.
Qed.

(** C3, amended.  For the chatgpt target the lines are scanned until a
    heading line is met after at least one line; the system content is the
    text before that boundary (the full text when there is none) with the
    white space at both ends removed, or the full restructured text when
    nothing remains; the user content is always the full restructured
    text.  So when there is no boundary and the text has no white space at
    its ends, the full text is both the system and the user content. *)
Theorem C3_system_user_split (timestamp restructured original : string) :
  let system :=
    if truthy (trim (stated_system_content restructured))
    then trim (stated_system_content restructured)
    else restructured in
  get_path ["reframed"; "api_ready"; "messages"]
           (formatForModel timestamp "chatgpt" restructured original)
    = Some (JArr [message "system" system; message "user" restructured])
  /\ (before_boundary (split (ascii_of_nat 10) restructured) [] = None ->
      trim restructured = restructured ->
      system = restructured).
Proof.
  cbv zeta. split.
  - change (Some (JArr [message "system" (extractSystemPrompt restructured);
                        message "user" (extractUserTask restructured)])
            = Some (JArr [message "system"
                            (or_else (trim (stated_system_content restructured))
                                     restructured);
                          message "user" restructured])).
    now rewrite extractSystemPrompt_stated.
  - intros Hnone Htrim. unfold stated_system_content. rewrite Hnone, Htrim.
    destruct (truthy restructured); reflexivity.
Qed.

Lemma C3_witness :
  let restructured := "Summarize the article in three bullet points." in
  before_boundary (split (ascii_of_nat 10) restructured) [] = None /\
  trim restructured = restructured /\
  (if truthy (trim (stated_system_content restructured))
   then trim (stated_system_content restructured)
   else restructured) = restructured.
Proof.
  cbv zeta. split; [reflexivity|]. split; [reflexivity|].
  apply (C3_system_user_split "2026-01-01T00:00:00.000Z"
           "Summarize the article in three bullet points."
           "summarize the article"); reflexivity.
Defined.

(* ================================================================== *)
(** ** The reframe route: the claims *)
(* ================================================================== *)

Section Route.

Variable w : world.

Lemma MODEL_TEMPLATES_own (m : string) :
  In m ["chatgpt"; "claude"; "gemini"; "perplexity"; "others"] ->
  exists systemPrompt, MODEL_TEMPLATES (modelExamples w) m = Template systemPrompt.
Proof.
  intros [<-|[<-|[<-|[<-|[<-|[]]]]]]; eexists; reflexivity.
Qed.

Lemma MODEL_TEMPLATES_inherited (m : string) :
  In m object_prototype_members ->
  MODEL_TEMPLATES (modelExamples w) m = Inherited.
Proof.
  unfold object_prototype_members.
  intros [<-|[<-|[<-|[<-|[<-|[<-|[<-|[<-|[<-|[<-|[<-|[<-|[]]]]]]]]]]]]]; reflexivity.
Qed.

Lemma MODEL_TEMPLATES_undefined (m : string) :
  ~ In m ["chatgpt"; "claude"; "gemini"; "perplexity"; "others"] ->
  ~ In m object_prototype_members ->
  MODEL_TEMPLATES (modelExamples w) m = Undefined.
Proof.
  intros Hown Hproto. unfold MODEL_TEMPLATES.
  repeat match goal with
  | |- context [String.eqb m ?k] =>
      destruct (String.eqb_spec m k) as [->|_];
      [exfalso; apply Hown; simpl; tauto|]
  end.
  destruct (existsb (String.eqb m) object_prototype_members) eqn:E; [|reflexivity].
  apply existsb_exists in E. destruct E as (k & Hin & Hk).
  apply String.eqb_eq in Hk. subst k. contradiction.
Qed.

Lemma nonempty_cons (s : string) :
  s <> EmptyString -> exists c s', s = String c s'.
Proof. destruct s as [|c s']; [contradiction | eauto]. Qed.

(** An empty or absent prompt is refused before anything else happens. *)
Lemma missing_prompt_rejected (b : body) :
  raw_prompt b = None \/ raw_prompt b = Some EmptyString ->
  reframe w b = (Some (bad_request "Prompt is required"), []).
Proof.
  unfold reframe, reframe_try. intros [-> | ->]; reflexivity.
Qed.

(** A model name that is neither one of the five nor a member of
    [Object.prototype] is refused before anything else happens. *)
Lemma unknown_model_rejected (raw m : string) (clar : option (list (string * string))) :
  raw <> EmptyString ->
  ~ In m ["chatgpt"; "claude"; "gemini"; "perplexity"; "others"] ->
  ~ In m object_prototype_members ->
  reframe w {| raw_prompt := Some raw; model := Some m; clarifications := clar |}
    = (Some (bad_request "Invalid model specified"), []).
Proof.
  intros Hraw Hown Hproto.
  destruct (nonempty_cons raw Hraw) as (c & raw' & ->).
  unfold reframe, reframe_try. cbn [raw_prompt model].
  rewrite (MODEL_TEMPLATES_undefined m Hown Hproto).
  destruct m; reflexivity.
Qed.

(** A request that passes the two checks, with the credential in place. *)
Lemma reframe_accepted (raw m : string) (clar : option (list (string * string))) :
  raw <> EmptyString ->
  MODEL_TEMPLATES (modelExamples w) m <> Undefined ->
  configured (process_env w) = true ->
  reframe_try w {| raw_prompt := Some raw; model := Some m; clarifications := clar |}
    = restructure w raw m (MODEL_TEMPLATES (modelExamples w) m) clar.
Proof.
  intros Hraw Hm Hkey.
  destruct (nonempty_cons raw Hraw) as (c & raw' & ->).
  unfold reframe_try. cbn [raw_prompt model clarifications].
  destruct m as [|d m'].
  - exfalso. apply Hm. reflexivity.
  - rewrite Hkey. cbn [negb].
    destruct (MODEL_TEMPLATES (modelExamples w) (String d m')); congruence.
Qed.

(** The same request without the credential. *)
Lemma reframe_unconfigured (raw m : string) (clar : option (list (string * string))) :
  raw <> EmptyString ->
  MODEL_TEMPLATES (modelExamples w) m <> Undefined ->
  configured (process_env w) = false ->
  reframe w {| raw_prompt := Some raw; model := Some m; clarifications := clar |}
    = (Some (ok (JObj [("restructured_prompt", JStr raw);
                       ("model", JStr m);
                       ("error", JStr "API key not configured");
                       ("timestamp", JStr (clock w))])), []).
Proof.
  intros Hraw Hm Hkey.
  destruct (nonempty_cons raw Hraw) as (c & raw' & ->).
  unfold reframe, reframe_try. cbn [raw_prompt model clarifications].
  destruct m as [|d m'].
  - exfalso. apply Hm. reflexivity.
  - rewrite Hkey. cbn [negb].
    destruct (MODEL_TEMPLATES (modelExamples w) (String d m')); congruence.
Qed.

Lemma restructure_failed (raw m : string) (tpl : property)
    (clar : option (list (string * string))) :
  generation_failed (create w (chat_request_for raw tpl clar)) = true ->
  restructure w raw m tpl clar
    = (Raised, [CallIsImageGenerationRequest raw;
                CallCreate (chat_request_for raw tpl clar)]).
Proof.
  unfold restructure. cbv zeta.
  destruct (create w (chat_request_for raw tpl clar)) as [|[|[generated|] rest]];
    simpl; intros H; try reflexivity; discriminate.
Qed.

Lemma restructure_succeeded (raw m : string) (tpl : property)
    (clar : option (list (string * string))) (generated : string)
    (rest : list (option string)) :
  create w (chat_request_for raw tpl clar) = Resolved (Some generated :: rest) ->
  restructure w raw m tpl clar
    = (Sent (ok (formatForModel (clock w) m (trim generated) raw)),
       [CallIsImageGenerationRequest raw;
        CallCreate (chat_request_for raw tpl clar);
        CallFormatForModel m (trim generated) raw]).
Proof. unfold restructure. cbv zeta. intros ->. reflexivity. Qed.

(** The full result: the generated text, trimmed, formatted for the model. *)
Lemma reframe_full (raw m generated : string) (rest : list (option string))
    (clar : option (list (string * string))) :
  raw <> EmptyString ->
  MODEL_TEMPLATES (modelExamples w) m <> Undefined ->
  configured (process_env w) = true ->
  create w (chat_request_for raw (MODEL_TEMPLATES (modelExamples w) m) clar)
    = Resolved (Some generated :: rest) ->
  reframe w {| raw_prompt := Some raw; model := Some m; clarifications := clar |}
    = (Some (ok (formatForModel (clock w) m (trim generated) raw)),
       [CallIsImageGenerationRequest raw;
        CallCreate (chat_request_for raw (MODEL_TEMPLATES (modelExamples w) m) clar);
        CallFormatForModel m (trim generated) raw]).
Proof.
  intros Hraw Hm Hkey Hgen. unfold reframe.
  rewrite (reframe_accepted raw m clar Hraw Hm Hkey).
  now rewrite (restructure_succeeded raw m _ clar generated rest Hgen).
Qed.

End Route.

(** C1 at reframe("Write a poem", "claude") without a credential: the
    process does not start; and the handler, reached without one, answers
    with a reply that has no reframed, original_prompt or metadata member,
    unlike the reply that the [catch] builds with formatForModel. *)
Lemma C1_counterexample :
  serve world_without_key (poem_request "claude") = None /\
  exists r,
    fst (reframe world_without_key (poem_request "claude")) = Some r /\
    get_path ["reframed"; "raw"] (sent r) <> Some (JStr "Write a poem") /\
    get_path ["reframed"] (sent r) = None /\
    get_path ["original_prompt"] (sent r) = None /\
    get_path ["metadata"] (sent r) = None.
Proof.
  split; [reflexivity|].
  eexists. split; [reflexivity|].
  split; [discriminate|]. repeat split.
Qed.

(** C1, what the code does where the claim is broken.  Without a
    credential the start-up check throws OPENAI_API_KEY is missing, although
    the messages of the code (lines 528 and 667) promise that reframing
    returns the original prompt.  The handler, when it runs without a
    credential on a non-empty prompt and one of the five models, makes no
    call and replies with status 200, but with the object
    restructured_prompt, model, error, timestamp instead of the result that
    formatForModel builds on the other degraded path. *)
Theorem C1_no_credential (w : world) (raw m : string)
    (clar : option (list (string * string))) :
  configured (process_env w) = false ->
  raw <> EmptyString ->
  In m ["chatgpt"; "claude"; "gemini"; "perplexity"; "others"] ->
  startup (process_env w) = StartupError "OPENAI_API_KEY is missing" /\
  reframe w {| raw_prompt := Some raw; model := Some m; clarifications := clar |}
    = (Some {| status := 200;
               sent := JObj [("restructured_prompt", JStr raw);
                             ("model", JStr m);
                             ("error", JStr "API key not configured");
                             ("timestamp", JStr (clock w))] |},
       []).
Proof.
  intros Hkey Hraw Hm. split.
  - unfold startup. now rewrite Hkey.
  - apply reframe_unconfigured; auto.
    destruct (MODEL_TEMPLATES_own w m Hm) as [s ->]. discriminate.
Qed.

Lemma C1_witness :
  startup (process_env world_without_key) = StartupError "OPENAI_API_KEY is missing" /\
  reframe world_without_key (poem_request "claude")
    = (Some {| status := 200;
               sent := JObj [("restructured_prompt", JStr "Write a poem");
                             ("model", JStr "claude");
                             ("error", JStr "API key not configured");
                             ("timestamp", JStr "2026-01-01T00:00:00.000Z")] |},
       []).
Proof.
  apply (C1_no_credential world_without_key "Write a poem" "claude" None).
  - reflexivity.
  - discriminate.
  - simpl. tauto.
Defined.

(** C2.  For every request with a non-empty prompt and one of the five
    models, when the credential is present and the generation call fails,
    the reply has status 200 and is the formatted original prompt:
    reframed.raw is the original prompt, error is set, and
    reframed.api_ready is the payload of the model built from the original
    prompt: for claude one user message with the prompt, for chatgpt a
    system message with the system content of the prompt and a user message
    with the prompt, for gemini one part with the prompt, for perplexity
    one system message with the prompt, for others the bare prompt. *)
Theorem C2_generation_failure_absorbed (w : world) (raw m : string)
    (clar : option (list (string * string))) :
  raw <> EmptyString ->
  In m ["chatgpt"; "claude"; "gemini"; "perplexity"; "others"] ->
  configured (process_env w) = true ->
  generation_failed
    (create w (chat_request_for raw (MODEL_TEMPLATES (modelExamples w) m) clar)) = true ->
  exists j calls,
    reframe w {| raw_prompt := Some raw; model := Some m; clarifications := clar |}
      = (Some {| status := 200; sent := j |}, calls) /\
    In (CallCreate (chat_request_for raw (MODEL_TEMPLATES (modelExamples w) m) clar))
       calls /\
    get_path ["model"] j = Some (JStr m) /\
    get_path ["original_prompt"] j = Some (JStr raw) /\
    get_path ["reframed"; "raw"] j = Some (JStr raw) /\
    get_path ["reframed"; "api_ready"] j = Some (api_ready m raw) /\
    get_path ["metadata"; "original_length"] j
      = Some (JNum (Z.of_nat (String.length raw))) /\
    get_path ["metadata"; "reframed_length"] j
      = Some (JNum (Z.of_nat (String.length raw))) /\
    get_path ["error"] j = Some (JStr "Automatic restructuring unavailable") /\
    (m = "claude" ->
     get_path ["reframed"; "api_ready"] j
       = Some (JObj [("model", JStr "claude-3-5-sonnet-20241022");
                     ("max_tokens", JNum 4096);
                     ("messages",
                      JArr [JObj [("role", JStr "user"); ("content", JStr raw)]])])) /\
    (m = "chatgpt" ->
     get_path ["reframed"; "api_ready"] j
       = Some (JObj [("model", JStr "gpt-4o");
                     ("messages",
                      JArr [JObj [("role", JStr "system");
                                  ("content",
                                   JStr (if truthy (trim (stated_system_content raw))
                                         then trim (stated_system_content raw)
                                         else raw))];
                            JObj [("role", JStr "user"); ("content", JStr raw)]]);
                     ("temperature", JNum 0)])) /\
    (m = "gemini" ->
     get_path ["reframed"; "api_ready"] j
       = Some (JObj [("model", JStr "gemini-2.5-flash");
                     ("contents",
                      JObj [("parts", JArr [JObj [("text", JStr raw)]])])])) /\
    (m = "perplexity" ->
     get_path ["reframed"; "api_ready"] j
       = Some (JObj [("model", JStr "sonar");
                     ("messages",
                      JArr [JObj [("role", JStr "system"); ("content", JStr raw)]])])) /\
    (m = "others" ->
     get_path ["reframed"; "api_ready"] j = Some (JObj [("prompt", JStr raw)])).
Proof.
  intros Hraw Hm Hkey Hfail.
  assert (MODEL_TEMPLATES (modelExamples w) m <> Undefined) as Hok
    by (destruct (MODEL_TEMPLATES_own w m Hm) as [s ->]; discriminate).
  unfold reframe.
  rewrite (reframe_accepted w raw m clar Hraw Hok Hkey).
  rewrite (restructure_failed w raw m _ clar Hfail).
  cbn [model raw_prompt].
  eexists. eexists. split; [reflexivity|].
  split; [simpl; tauto|].
  do 7 (split; [reflexivity|]).
  split; [|split; [|split; [|split]]]; intros ->; try reflexivity.
  change (Some (JObj [("model", JStr "gpt-4o");
                      ("messages",
                       JArr [message "system" (extractSystemPrompt raw);
                             message "user" (extractUserTask raw)]);
                      ("temperature", JNum 0)])
          = Some (JObj [("model", JStr "gpt-4o");
                        ("messages",
                         JArr [message "system"
                                 (or_else (trim (stated_system_content raw)) raw);
                               message "user" raw]);
                        ("temperature", JNum 0)])).
  now rewrite extractSystemPrompt_stated.
Qed.

Lemma C2_witness :
  exists j calls,
    reframe world_failing (poem_request "chatgpt")
      = (Some {| status := 200; sent := j |}, calls) /\
    In (CallCreate (chat_request_for "Write a poem"
                      (MODEL_TEMPLATES (modelExamples world_failing) "chatgpt") None))
       calls /\
    get_path ["model"] j = Some (JStr "chatgpt") /\
    get_path ["original_prompt"] j = Some (JStr "Write a poem") /\
    get_path ["reframed"; "raw"] j = Some (JStr "Write a poem") /\
    get_path ["reframed"; "api_ready"] j
      = Some (JObj [("model", JStr "gpt-4o");
                    ("messages",
                     JArr [JObj [("role", JStr "system");
                                 ("content", JStr "Write a poem")];
                           JObj [("role", JStr "user");
                                 ("content", JStr "Write a poem")]]);
                    ("temperature", JNum 0)]) /\
    get_path ["metadata"; "original_length"] j = Some (JNum 12) /\
    get_path ["metadata"; "reframed_length"] j = Some (JNum 12) /\
    get_path ["error"] j = Some (JStr "Automatic restructuring unavailable").
Proof.
  destruct (C2_generation_failure_absorbed world_failing "Write a poem" "chatgpt" None)
    as (j & calls & Hreply & Hcall & Hmodel & Horig & Hraw & _ & Hlen1 & Hlen2
        & Herr & _ & Hchatgpt & _).
  - discriminate.
  - simpl. tauto.
  - reflexivity.
  - reflexivity.
  - exists j, calls.
    split; [exact Hreply|]. split; [exact Hcall|]. split; [exact Hmodel|].
    split; [exact Horig|]. split; [exact Hraw|].
    split; [exact (Hchatgpt eq_refl)|].
    split; [exact Hlen1|]. split; [exact Hlen2|]. exact Herr.
Defined.

(** C4 at a model name inherited from [Object.prototype], such as
    constructor: the name is none of the five, yet the request is not
    refused.  [MODEL_TEMPLATES["constructor"]] is the inherited [Object]
    function, which is truthy, so the check lets the request through: the
    reply has status 200 and, with the credential in place, the completion
    service is called (with an undefined system prompt unless the prompt is
    an image request). *)
Theorem C4_inherited_name_not_rejected (w : world) (raw name : string)
    (clar : option (list (string * string))) :
  raw <> EmptyString ->
  In name ["constructor"; "hasOwnProperty"; "isPrototypeOf"; "propertyIsEnumerable";
           "toLocaleString"; "toString"; "valueOf"; "__proto__";
           "__defineGetter__"; "__defineSetter__"; "__lookupGetter__";
           "__lookupSetter__"] ->
  ~ In name ["chatgpt"; "claude"; "gemini"; "perplexity"; "others"] /\
  exists j calls,
    reframe w {| raw_prompt := Some raw; model := Some name; clarifications := clar |}
      = (Some {| status := 200; sent := j |}, calls) /\
    (configured (process_env w) = true ->
     In (CallCreate (chat_request_for raw Inherited clar)) calls).
Proof.
  intros Hraw Hname.
  pose proof (MODEL_TEMPLATES_inherited w name Hname) as Htpl.
  split.
  { intros Hfive.
    destruct (MODEL_TEMPLATES_own w name Hfive) as [s Hs]. congruence. }
  assert (MODEL_TEMPLATES (modelExamples w) name <> Undefined) as Hok
    by (rewrite Htpl; discriminate).
  destruct (configured (process_env w)) eqn:Hkey.
  - unfold reframe.
    rewrite (reframe_accepted w raw name clar Hraw Hok Hkey).
    rewrite Htpl. unfold restructure. cbv zeta.
    destruct (create w (chat_request_for raw Inherited clar)) as [|[|[generated|] rest]];
      cbn [model raw_prompt];
      eexists; eexists; (split; [reflexivity | intros _; simpl; tauto]).
  - rewrite (reframe_unconfigured w raw name clar Hraw Hok Hkey).
    eexists. eexists. split; [reflexivity | discriminate].
Qed.

Lemma C4_witness :
  ~ In "constructor" ["chatgpt"; "claude"; "gemini"; "perplexity"; "others"] /\
  exists j calls,
    reframe world_answering (poem_request "constructor")
      = (Some {| status := 200; sent := j |}, calls) /\
    (configured (process_env world_answering) = true ->
     In (CallCreate (chat_request_for "Write a poem" Inherited None)) calls).
Proof.
  apply (C4_inherited_name_not_rejected world_answering "Write a poem" "constructor" None).
  - discriminate.
  - simpl. tauto.
Defined.

(** C9.  For every reply of the reframe route that has the reframed
    member (every reply built by formatForModel: the full result and the
    result formatted after a failed generation),
    metadata.original_length is the length of original_prompt and
    metadata.reframed_length is the length of reframed.raw. *)
Theorem C9_lengths (w : world) (b : body) (r : reply) (calls : list call) :
  reframe w b = (Some r, calls) ->
  get_path ["reframed"] (sent r) <> None ->
  exists original restructured,
    get_path ["original_prompt"] (sent r) = Some (JStr original) /\
    get_path ["reframed"; "raw"] (sent r) = Some (JStr restructured) /\
    get_path ["metadata"; "original_length"] (sent r)
      = Some (JNum (Z.of_nat (String.length original))) /\
    get_path ["metadata"; "reframed_length"] (sent r)
      = Some (JNum (Z.of_nat (String.length restructured))).
Proof.
  unfold reframe, reframe_try, restructure. cbv zeta.
  destruct (raw_prompt b) as [[|c raw]|]; destruct (model b) as [[|d m]|];
    try (intros H Hr; inversion H; subst; exfalso; apply Hr; reflexivity).
  destruct (MODEL_TEMPLATES (modelExamples w) (String d m));
    try (intros H Hr; inversion H; subst; exfalso; apply Hr; reflexivity);
    (destruct (configured (process_env w)); cbn [negb];
     [| intros H Hr; inversion H; subst; exfalso; apply Hr; reflexivity]);
    match goal with
    | |- context [create w ?rq] =>
        destruct (create w rq) as [|[|[generated|] rest]]
    end;
    intros H _; inversion H; subst; cbn [sent ok];
    eexists; eexists; repeat split.
Qed.

Lemma C9_witness :
  exists original restructured,
    get_path ["original_prompt"]
      (formatForModel "2026-01-01T00:00:00.000Z" "claude"
                      "<task>Write a poem</task>" "Write a poem")
      = Some (JStr original) /\
    get_path ["reframed"; "raw"]
      (formatForModel "2026-01-01T00:00:00.000Z" "claude"
                      "<task>Write a poem</task>" "Write a poem")
      = Some (JStr restructured) /\
    get_path ["metadata"; "original_length"]
      (formatForModel "2026-01-01T00:00:00.000Z" "claude"
                      "<task>Write a poem</task>" "Write a poem")
      = Some (JNum (Z.of_nat (String.length original))) /\
    get_path ["metadata"; "reframed_length"]
      (formatForModel "2026-01-01T00:00:00.000Z" "claude"
                      "<task>Write a poem</task>" "Write a poem")
      = Some (JNum (Z.of_nat (String.length restructured))).
Proof.
  apply (C9_lengths world_answering (poem_request "claude")
           (ok (formatForModel "2026-01-01T00:00:00.000Z" "claude"
                               "<task>Write a poem</task>" "Write a poem"))
           [CallIsImageGenerationRequest "Write a poem";
            CallCreate (chat_request_for "Write a poem"
                          (MODEL_TEMPLATES sample_examples "claude") None);
            CallFormatForModel "claude" "<task>Write a poem</task>" "Write a poem"]).
  - reflexivity.
  - discriminate.
Defined.

(* ================================================================== *)
(** ** Ambiguity detector: when each rule reports, and letter case *)
(* ================================================================== *)

Section DetectorExact.

Lemma reported_vague (prompt : string) :
  In vague_quantifier_finding (questions (detectAmbiguity prompt)) <->
  test vagueQuantifiers prompt = true.
Proof.
  rewrite detect_questions.
  destruct (test vagueQuantifiers prompt);
    destruct (test broadTopics prompt && (String.length prompt <? 50));
    destruct (negb (test formatKeywords prompt)
              && (10 <? List.length (split space prompt)));
    cbn [app]; split; intros H; try reflexivity; try discriminate H;
    try (left; reflexivity);
    simpl in H; repeat (destruct H as [H|H]; [discriminate H|]); contradiction.
Qed.


Lemma reported_format (prompt : string) :
  In missing_format_finding (questions (detectAmbiguity prompt)) <->
  negb (test formatKeywords prompt)
  && (10 <? List.length (split space prompt)) = true.
Proof.
  rewrite detect_questions.
  destruct (test vagueQuantifiers prompt);
    destruct (test broadTopics prompt && (String.length prompt <? 50));
    destruct (negb (test formatKeywords prompt)
              && (10 <? List.length (split space prompt)));
    cbn [app]; split; intros H; try reflexivity; try discriminate H;
    try (simpl; tauto);
    simpl in H; repeat (destruct H as [H|H]; [discriminate H|]); contradiction.
Qed.

(** [split(' ')] gives one piece more than there are space characters. *)
Lemma split_space_length (s : string) :
  List.length (split space s) = S (count_spaces s).
Proof.
  induction s as [|c s IH]; [reflexivity|].
  cbn [split count_spaces].
  destruct (Ascii.eqb c space).
  - cbn [List.length]. now rewrite IH.
  - destruct (split space s) as [|h t]; [discriminate IH|].
    cbn [List.length] in *. exact IH.
Qed.

End DetectorExact.

(** X1.  The vague_quantifier finding is reported exactly when one of
    some, few, many, several, a bit, lots of occurs in the prompt as a
    whole word, in any case; a prompt where these letters only occur
    inside longer words gets no such finding. *)
Theorem X1_vague_quantifier_exact (prompt : string) :
  In {| type := "vague_quantifier";
        question := "How many examples or items would you like?";
        options := ["1-2"; "3-5"; "5-10"; "More than 10"] |}
     (questions (detectAmbiguity prompt))
  <-> exists w, In w ["some"; "few"; "many"; "several"; "a bit"; "lots of"]
                /\ whole_word w prompt.
Proof.
  change (In vague_quantifier_finding (questions (detectAmbiguity prompt)) <->
          exists w, In w ["some"; "few"; "many"; "several"; "a bit"; "lots of"]
                    /\ whole_word w prompt).
  rewrite reported_vague. apply vagueQuantifiers_test.
Qed.


(** X3.  The missing_format finding is reported exactly when the prompt
    has at least 10 space characters and none of list, table, summary,
    paragraph, code, json, steps occurs in it as a whole word. *)
Theorem X3_missing_format_exact (prompt : string) :
  In {| type := "missing_format";
        question := "How should the output be formatted?";
        options := ["Bullet points"; "Paragraph"; "Step-by-step"; "Table"] |}
     (questions (detectAmbiguity prompt))
  <-> 10 <= count_spaces prompt /\
      forall w, In w ["list"; "table"; "summary"; "paragraph"; "code"; "json"; "steps"] ->
                ~ whole_word w prompt.
Proof.
  change (In missing_format_finding (questions (detectAmbiguity prompt)) <->
          10 <= count_spaces prompt /\
          forall w, In w ["list"; "table"; "summary"; "paragraph"; "code"; "json"; "steps"] ->
                    ~ whole_word w prompt).
  rewrite reported_format, andb_true_iff, negb_true_iff, Nat.ltb_lt, split_space_length.
  split.
  - intros [Hno Hlen]. split; [lia|].
    intros w Hin Hw.
    assert (test formatKeywords prompt = true) as Hyes
      by (apply formatKeywords_test; exists w; auto).
    congruence.
  - intros [Hlen Hnone]. split; [|lia].
    destruct (test formatKeywords prompt) eqn:E; [|reflexivity].
    apply formatKeywords_test in E. destruct E as (w & Hin & Hw).
    exfalso. exact (Hnone w Hin Hw).
Qed.

(* ================================================================== *)
(** ** The case of ASCII letters does not matter to the detector *)
(* ================================================================== *)

Section LetterCase.

Lemma lower_lower (x : ascii) : lower (lower x) = lower x.
Proof. destruct x as [[] [] [] [] [] [] [] []]; vm_compute; reflexivity. Qed.

Lemma toLowerCase_idempotent (s : string) :
  toLowerCase (toLowerCase s) = toLowerCase s.
Proof.
  induction s as [|c s IH]; [reflexivity|].
  simpl. now rewrite lower_lower, IH.
Qed.

End LetterCase.

(** A change of characters that the three patterns, the length test and
    the count of spaces cannot see. *)
Section CaseMap.

Variable f : ascii -> ascii.
Hypothesis f_canonicalize : forall x, canonicalize (f x) = canonicalize x.
Hypothesis f_word : forall x, isWordChar (f x) = isWordChar x.
Hypothesis f_space : forall x, isSpace (f x) = isSpace x.
Hypothesis f_blank : forall x, Ascii.eqb (f x) space = Ascii.eqb x space.

Lemma map_chars_length (s : string) :
  String.length (map_chars f s) = String.length s.
Proof. induction s as [|c s IH]; simpl; [reflexivity | now rewrite IH]. Qed.

Lemma count_spaces_map (s : string) :
  count_spaces (map_chars f s) = count_spaces s.
Proof.
  induction s as [|c s IH]; [reflexivity|].
  simpl. now rewrite f_blank, IH.
Qed.

Lemma in_class_map (cl : charclass) (x : ascii) :
  in_class cl (f x) = in_class cl x.
Proof. destruct cl; [apply f_space | apply f_word]. Qed.

Lemma opt_word_map (p : option ascii) :
  opt_word (option_map f p) = opt_word p.
Proof. destruct p; [apply f_word | reflexivity]. Qed.

Lemma first_char_map (s : string) :
  opt_word (first_char (map_chars f s)) = opt_word (first_char s).
Proof. destruct s as [|c s]; [reflexivity | apply f_word]. Qed.

Lemma plus_class_map (cl : charclass) (rest : string) (k' k : cont) :
  agree f k' k ->
  plus_class (in_class cl) (map_chars f rest) k' = plus_class (in_class cl) rest k.
Proof.
  intros Hk. induction rest as [|x xs IH]; [reflexivity|].
  simpl. rewrite in_class_map, IH.
  pose proof (Hk (Some x) xs) as Hx. simpl in Hx. now rewrite Hx.
Qed.

Lemma rmatch_map (r : regex) :
  forall prev rest (k' k : cont),
    agree f k' k ->
    rmatch true r (option_map f prev) (map_chars f rest) k'
    = rmatch true r prev rest k.
Proof.
  induction r as [|c|r1 IH1 r2 IH2|r1 IH1 r2 IH2| |cl|r1 IH1];
    intros prev rest k' k Hk; cbn [rmatch].
  - apply Hk.
  - destruct rest as [|x xs]; [reflexivity|].
    cbn [map_chars]. unfold char_eq. rewrite f_canonicalize.
    pose proof (Hk (Some x) xs) as Hx. simpl in Hx. now rewrite Hx.
  - apply IH1. intros p m. now apply IH2.
  - now rewrite (IH1 prev rest k' k Hk), (IH2 prev rest k' k Hk).
  - unfold at_boundary. rewrite opt_word_map, first_char_map.
    now rewrite (Hk prev rest).
  - now apply plus_class_map.
  - rewrite (IH1 prev rest (fun _ _ => true) (fun _ _ => true)) by (intros p m; reflexivity).
    now rewrite (Hk prev rest).
Qed.

Lemma search_map (r : regex) (rest : string) :
  forall prev,
    search true r (option_map f prev) (map_chars f rest) = search true r prev rest.
Proof.
  assert (agree f (fun _ _ => true) (fun _ _ => true)) as Htrue
    by (intros p m; reflexivity).
  induction rest as [|x xs IH]; intros prev.
  - pose proof (rmatch_map r prev EmptyString _ _ Htrue) as E.
    cbn [map_chars] in E. cbn [search map_chars]. now rewrite E.
  - pose proof (rmatch_map r prev (String x xs) _ _ Htrue) as E.
    cbn [map_chars] in E. cbn [search map_chars]. rewrite E.
    now rewrite <- (IH (Some x)).
Qed.

Lemma test_map (re : RegExp) (s : string) :
  ignoreCase re = true -> test re (map_chars f s) = test re s.
Proof.
  unfold test. intros ->. exact (search_map (source re) s None).
Qed.

Lemma detectAmbiguity_map (prompt : string) :
  detectAmbiguity (map_chars f prompt) = detectAmbiguity prompt.
Proof.
  unfold detectAmbiguity.
  rewrite !test_map by reflexivity.
  now rewrite map_chars_length, !split_space_length, count_spaces_map.
Qed.

End CaseMap.

Lemma detectAmbiguity_fold (prompt : string) :
  detectAmbiguity (fold_ascii_case prompt) = detectAmbiguity prompt.
Proof.
  apply detectAmbiguity_map;
    intros x; destruct x as [[] [] [] [] [] [] [] []]; vm_compute; reflexivity.
Qed.

(** X4.  The ambiguity check does not see the case of the letters A to Z:
    two prompts that differ only in the case of such letters get the same
    reply from the check-ambiguity route. *)
Theorem X4_check_ambiguity_ignores_case (p q : string) :
  fold_ascii_case p = fold_ascii_case q ->
  checkAmbiguity (Some p) = checkAmbiguity (Some q).
Proof.
  intros H.
  destruct p as [|c p]; destruct q as [|d q]; try discriminate H; [reflexivity|].
  change (AmbiguityResult (detectAmbiguity (String c p))
          = AmbiguityResult (detectAmbiguity (String d q))).
  rewrite <- (detectAmbiguity_fold (String c p)), <- (detectAmbiguity_fold (String d q)).
  now rewrite H.
Qed.

Lemma X4_witness :
  checkAmbiguity (Some "Explain SOME Ideas") = checkAmbiguity (Some "explain some IDEAS").
Proof.
  apply (X4_check_ambiguity_ignores_case "Explain SOME Ideas" "explain some IDEAS").
  reflexivity.
Defined.

(* ================================================================== *)
(** ** Intent classifier: added text and letter case *)
(* ================================================================== *)

Section ClassifierMore.

Lemma string_append_assoc (a b c : string) :
  ((a ++ b) ++ c)%string = (a ++ (b ++ c))%string.
Proof. induction a as [|x a IH]; simpl; [reflexivity | now rewrite IH]. Qed.

Lemma occurs_in_context (k s pre post : string) :
  occurs_in k s -> occurs_in k (pre ++ s ++ post).
Proof.
  intros (a & b & ->). exists (pre ++ a)%string, (b ++ post)%string.
  now rewrite !string_append_assoc.
Qed.

Lemma some_includes_context (keywords : list string) (s pre post : string) :
  some (fun keyword => includes s keyword) keywords = true ->
  some (fun keyword => includes (pre ++ s ++ post) keyword) keywords = true.
Proof.
  rewrite !some_includes_iff. intros (k & Hin & H).
  exists k. split; [exact Hin | now apply occurs_in_context].
Qed.

End ClassifierMore.

(** X5.  The image-request decision only looks at the prompt in lower
    case, and text added before or after an image request leaves it an
    image request. *)
Theorem X5_image_request_stable (prompt : string) :
  isImageGenerationRequest (toLowerCase prompt) = isImageGenerationRequest prompt /\
  (isImageGenerationRequest prompt = true ->
   forall before after,
     isImageGenerationRequest (before ++ prompt ++ after) = true).
Proof.
  split.
  - unfold isImageGenerationRequest. cbv zeta. now rewrite toLowerCase_idempotent.
  - unfold isImageGenerationRequest. cbv zeta.
    rewrite andb_true_iff, orb_true_iff. intros [Himg Hmore] before after.
    rewrite !toLowerCase_append.
    apply andb_true_iff. split; [now apply some_includes_context|].
    apply orb_true_iff.
    destruct Hmore as [H|H]; [left | right]; now apply some_includes_context.
Qed.

Lemma X5_witness :
  isImageGenerationRequest
    ("Please " ++ "draw a banner" ++ " for the school fair") = true.
Proof.
  apply (X5_image_request_stable "draw a banner"). reflexivity.
Defined.

(* ================================================================== *)
(** ** Response formatter: what the system content can be *)
(* ================================================================== *)

Section SystemContent.

Lemma trimStart_suffix (s : string) : exists pre, s = (pre ++ trimStart s)%string.
Proof.
  induction s as [|c s [pre IH]].
  - exists EmptyString. reflexivity.
  - simpl. destruct (isSpace c).
    + exists (String c pre). simpl. now rewrite <- IH.
    + exists EmptyString. reflexivity.
Qed.

Lemma trimEnd_prefix (s : string) : exists post, s = (trimEnd s ++ post)%string.
Proof.
  induction s as [|c s [post IH]].
  - exists EmptyString. reflexivity.
  - simpl. destruct (trimEnd s) as [|d t] eqn:E.
    + destruct (isSpace c).
      * exists (String c s). reflexivity.
      * exists s. reflexivity.
    + exists post. simpl. now rewrite IH at 1.
Qed.

Lemma trim_occurs (s : string) : occurs_in (trim s) s.
Proof.
  unfold trim.
  destruct (trimStart_suffix s) as [pre Hpre].
  destruct (trimEnd_prefix (trimStart s)) as [post Hpost].
  exists pre, post. now rewrite <- Hpost.
Qed.

Lemma scan_lines_prefix (lines : list string) :
  forall seen, exists taken rest,
    lines = taken ++ rest /\ scan_lines lines seen = seen ++ taken.
Proof.
  induction lines as [|line more IH]; intros seen.
  - exists [], []. simpl. now rewrite app_nil_r.
  - simpl. destruct (startsWith (trim line) hash && (0 <? List.length seen)).
    + exists [], (line :: more). simpl. now rewrite app_nil_r.
    + destruct (IH (seen ++ [line])) as (taken & rest & Hl & Hs).
      exists (line :: taken), rest. split; [simpl; now rewrite Hl|].
      rewrite Hs. now rewrite <- app_assoc.
Qed.

Lemma join_app (a b : list string) :
  a <> [] -> b <> [] ->
  join newline (a ++ b) = (join newline a ++ newline ++ join newline b)%string.
Proof.
  intros Ha Hb. induction a as [|x a IH]; [contradiction|].
  destruct a as [|y a].
  - simpl app. now rewrite join_cons.
  - change ((x :: y :: a) ++ b) with (x :: ((y :: a) ++ b)).
    rewrite !join_cons by discriminate.
    rewrite IH by discriminate.
    now rewrite !string_append_assoc.
Qed.

Lemma join_prefix (taken rest : list string) :
  exists post, join newline (taken ++ rest) = (join newline taken ++ post)%string.
Proof.
  destruct taken as [|x taken].
  - exists (join newline rest). reflexivity.
  - destruct rest as [|y rest].
    + exists EmptyString. now rewrite app_nil_r, append_nil_r.
    + exists (newline ++ join newline (y :: rest))%string.
      apply join_app; discriminate.
Qed.

Lemma occurs_in_prefix (k s post : string) :
  occurs_in k s -> occurs_in k (s ++ post).
Proof.
  intros (a & b & ->). exists a, (b ++ post)%string.
  now rewrite !string_append_assoc.
Qed.

Lemma occurs_in_refl (s : string) : occurs_in s s.
Proof. exists EmptyString, EmptyString. simpl. now rewrite append_nil_r. Qed.

End SystemContent.

(** X6.  The system content that extractSystemPrompt returns is always a
    piece of the given text, taken as it stands, and it is empty only when
    the given text is empty. *)
Theorem X6_system_content_from_text (prompt : string) :
  occurs_in (extractSystemPrompt prompt) prompt /\
  (extractSystemPrompt prompt = EmptyString <-> prompt = EmptyString).
Proof.
  unfold extractSystemPrompt. cbv zeta.
  destruct (scan_lines_prefix (split (ascii_of_nat 10) prompt) [])
    as (taken & rest & Hlines & Hscan).
  cbn [app] in Hscan. rewrite Hscan.
  unfold or_else.
  destruct (trim (join newline taken)) as [|c t] eqn:Htrim; cbn [truthy].
  - split; [apply occurs_in_refl | reflexivity].
  - split.
    + destruct (join_prefix taken rest) as [post Hpost].
      rewrite <- Hlines, join_split in Hpost.
      rewrite Hpost. apply occurs_in_prefix.
      rewrite <- Htrim. apply trim_occurs.
    + split; [discriminate|].
      intros ->. simpl in Hlines.
      destruct taken as [|x [|y taken]]; simpl in Hlines.
      * discriminate Htrim.
      * inversion Hlines; subst. discriminate Htrim.
      * inversion Hlines.
Qed.

(* ================================================================== *)
(** ** The reframe route: every way a request can end *)
(* ================================================================== *)

Section RouteOutcomes.

Variable w : world.

Lemma truthy_nonempty (s : string) : truthy s = true <-> s <> EmptyString.
Proof. destruct s; simpl; split; congruence. Qed.

Lemma model_accepted_known (raw m : string) (clar : option (list (string * string))) :
  MODEL_TEMPLATES (modelExamples w) m <> Undefined ->
  model_accepted (modelExamples w)
    {| raw_prompt := Some raw; model := Some m; clarifications := clar |} = true.
Proof.
  intros Hm. unfold model_accepted. cbn [model].
  destruct m as [|d m]; [exfalso; apply Hm; reflexivity|].
  cbn [truthy andb].
  destruct (MODEL_TEMPLATES (modelExamples w) (String d m)); congruence.
Qed.

Lemma accepted_outcome (raw m : string) (clar : option (list (string * string))) :
  raw <> EmptyString ->
  MODEL_TEMPLATES (modelExamples w) m <> Undefined ->
  reframe_outcome w {| raw_prompt := Some raw; model := Some m; clarifications := clar |}
    (reframe w {| raw_prompt := Some raw; model := Some m; clarifications := clar |}).
Proof.
  intros Hraw Hm.
  pose proof (model_accepted_known raw m clar Hm) as Hacc.
  assert (prompt_given {| raw_prompt := Some raw; model := Some m;
                          clarifications := clar |} = true) as Hgiven
    by (now apply truthy_nonempty).
  destruct (configured (process_env w)) eqn:Hkey.
  - unfold reframe. rewrite (reframe_accepted w raw m clar Hraw Hm Hkey).
    destruct (create w (chat_request_for raw (MODEL_TEMPLATES (modelExamples w) m) clar))
      as [|[|[generated|] others]] eqn:Hcreate.
    + rewrite (restructure_failed w raw m _ clar) by (now rewrite Hcreate).
      cbn [model raw_prompt app].
      apply (DegradedResult w {| raw_prompt := Some raw; model := Some m; clarifications := clar |} raw m); auto.
      cbn [clarifications]. now rewrite Hcreate.
    + rewrite (restructure_failed w raw m _ clar) by (now rewrite Hcreate).
      cbn [model raw_prompt app].
      apply (DegradedResult w {| raw_prompt := Some raw; model := Some m; clarifications := clar |} raw m); auto.
      cbn [clarifications]. now rewrite Hcreate.
    + rewrite (restructure_succeeded w raw m _ clar generated others Hcreate).
      apply (FullResult w {| raw_prompt := Some raw; model := Some m; clarifications := clar |} raw m generated others); auto.
    + rewrite (restructure_failed w raw m _ clar) by (now rewrite Hcreate).
      cbn [model raw_prompt app].
      apply (DegradedResult w {| raw_prompt := Some raw; model := Some m; clarifications := clar |} raw m); auto.
      cbn [clarifications]. now rewrite Hcreate.
  - rewrite (reframe_unconfigured w raw m clar Hraw Hm Hkey).
    apply (KeyMissing w {| raw_prompt := Some raw; model := Some m; clarifications := clar |} raw m); auto.
Qed.

Lemma reframe_outcomes (b : body) : reframe_outcome w b (reframe w b).
Proof.
  destruct b as [rp md clar].
  destruct rp as [[|c raw]|].
  - apply PromptMissing. reflexivity.
  - destruct md as [[|d m]|].
    + apply ModelInvalid; reflexivity.
    + destruct (MODEL_TEMPLATES (modelExamples w) (String d m)) eqn:Htpl.
      * apply accepted_outcome; [discriminate | rewrite Htpl; discriminate].
      * apply accepted_outcome; [discriminate | rewrite Htpl; discriminate].
      * unfold reframe, reframe_try. cbn [raw_prompt model]. rewrite Htpl.
        apply ModelInvalid; [reflexivity|].
        unfold model_accepted. cbn [model truthy andb]. now rewrite Htpl.
    + apply ModelInvalid; reflexivity.
  - apply PromptMissing. reflexivity.
Qed.

End RouteOutcomes.

(** X7.  For a body whose raw_prompt and model are strings or absent
    (type [body]), and once the completion call, if any, has settled, the
    reframe route always sends a reply, with status 400 or 200.  The status is 400 exactly when the prompt is absent or empty,
    or the model is absent, empty or no property of MODEL_TEMPLATES; a
    refused request makes no call, and a missing prompt is reported before
    a bad model. *)
Theorem X7_reply_and_status (w : world) (b : body) :
  exists r,
    fst (reframe w b) = Some r /\
    (status r = 400 \/ status r = 200) /\
    (status r = 400 <->
     prompt_given b = false \/ model_accepted (modelExamples w) b = false) /\
    (status r = 400 -> snd (reframe w b) = []) /\
    (prompt_given b = false -> sent r = JObj [("error", JStr "Prompt is required")]).
Proof.
  destruct (reframe_outcomes w b) as [Hp | Hp Hm | raw m _ _ Hp Hm _
                                      | raw m g others _ _ Hp Hm _ _
                                      | raw m _ _ Hp Hm _ _];
    eexists; (split; [reflexivity|]); cbn [fst snd status sent bad_request ok];
    rewrite ?Hp, ?Hm;
    repeat split; auto; try discriminate; try tauto;
    try (intros [H|H]; discriminate H).
Qed.




(* ================================================================== *)
(** ** The generated text is used trimmed *)
(* ================================================================== *)

Section Trimming.

Lemma string_length_append (a b : string) :
  String.length (a ++ b) = String.length a + String.length b.
Proof. induction a as [|x a IH]; simpl; [reflexivity | now rewrite IH]. Qed.

Lemma trim_length (s : string) : String.length (trim s) <= String.length s.
Proof.
  destruct (trim_occurs s) as (pre & post & H).
  rewrite H at 2. rewrite !string_length_append. lia.
Qed.

Lemma first_char_trimStart (s : string) (c : ascii) :
  first_char (trimStart s) = Some c -> isSpace c = false.
Proof.
  induction s as [|x s IH]; simpl; [discriminate|].
  destruct (isSpace x) eqn:E; [exact IH|].
  simpl. intros H. inversion H; subst. exact E.
Qed.

Lemma trimEnd_cons (x : ascii) (s : string) :
  trimEnd (String x s) = EmptyString \/
  exists t, trimEnd (String x s) = String x t.
Proof.
  simpl. destruct (trimEnd s).
  - destruct (isSpace x); [left | right; eexists]; reflexivity.
  - right. eexists. reflexivity.
Qed.

Lemma first_char_trimEnd (s : string) (c : ascii) :
  first_char (trimEnd s) = Some c -> first_char s = Some c.
Proof.
  destruct s as [|x s]; [discriminate|].
  destruct (trimEnd_cons x s) as [-> | [t ->]]; [discriminate | auto].
Qed.

Lemma last_char_trimEnd (s : string) (c : ascii) :
  last_char (trimEnd s) = Some c -> isSpace c = false.
Proof.
  induction s as [|x s IH]; [discriminate|].
  simpl trimEnd. destruct (trimEnd s) as [|d t] eqn:E.
  - destruct (isSpace x) eqn:Ex; [discriminate|].
    simpl. intros H. inversion H; subst. exact Ex.
  - rewrite last_char_cons_nonempty. exact IH.
Qed.

Lemma trim_trimmed (s : string) : trimmed (trim s).
Proof.
  unfold trimmed, trim. split; intros c H.
  - apply first_char_trimEnd in H. now apply first_char_trimStart in H.
  - now apply last_char_trimEnd in H.
Qed.

Lemma trimEnd_idempotent (s : string) : trimEnd (trimEnd s) = trimEnd s.
Proof.
  induction s as [|x s IH]; [reflexivity|].
  simpl trimEnd at 2 3. destruct (trimEnd s) as [|d t] eqn:E.
  - destruct (isSpace x) eqn:Ex; [reflexivity|].
    simpl. now rewrite Ex.
  - change (trimEnd (String x (String d t))) with
      (match trimEnd (String d t) with
       | EmptyString => if isSpace x then EmptyString else String x EmptyString
       | u => String x u
       end).
    now rewrite IH.
Qed.

Lemma trimStart_fixed (s : string) :
  (forall c, first_char s = Some c -> isSpace c = false) -> trimStart s = s.
Proof.
  destruct s as [|x s]; [reflexivity|].
  intros H. simpl. now rewrite (H x eq_refl).
Qed.

Lemma trim_idempotent (s : string) : trim (trim s) = trim s.
Proof.
  unfold trim at 1.
  rewrite (trimStart_fixed (trim s)) by apply trim_trimmed.
  unfold trim. apply trimEnd_idempotent.
Qed.

Lemma trimStart_white_space (s : string) :
  exists before, s = (before ++ trimStart s)%string /\ all_chars isSpace before = true.
Proof.
  induction s as [|c s (before & IH & Hall)].
  - exists EmptyString. auto.
  - simpl. destruct (isSpace c) eqn:E.
    + exists (String c before). split; [simpl; now rewrite <- IH|].
      simpl. now rewrite E.
    + exists EmptyString. auto.
Qed.

Lemma trimEnd_white_space (s : string) :
  exists after, s = (trimEnd s ++ after)%string /\ all_chars isSpace after = true.
Proof.
  induction s as [|c s (after & IH & Hall)].
  - exists EmptyString. auto.
  - simpl. destruct (trimEnd s) as [|d t] eqn:E.
    + simpl in IH. subst after. destruct (isSpace c) eqn:Ec.
      * exists (String c s). split; [reflexivity|]. simpl. now rewrite Ec.
      * exists s. auto.
    + exists after. split; [simpl; now rewrite IH at 1 | exact Hall].
Qed.

Lemma trim_between_white_space (s : string) :
  exists before after,
    s = (before ++ trim s ++ after)%string /\
    all_chars isSpace before = true /\ all_chars isSpace after = true.
Proof.
  unfold trim.
  destruct (trimStart_white_space s) as (before & Hb & Hball).
  destruct (trimEnd_white_space (trimStart s)) as (after & Ha & Haall).
  exists before, after. split; [|auto]. now rewrite <- Ha.
Qed.

End Trimming.

(** X10.  On a full result reframed.raw is the generated text without the
    white space at its ends: the generated text is white space, then
    reframed.raw, then white space, and reframed.raw neither starts nor
    ends with white space (so it is [trim] of the generated text and no
    longer than it); the reply has no error member and original_prompt
    is the prompt as sent. *)
Theorem X10_full_result_trimmed (w : world) (raw m generated : string)
    (others : list (option string)) (clar : option (list (string * string))) :
  raw <> EmptyString ->
  MODEL_TEMPLATES (modelExamples w) m <> Undefined ->
  configured (process_env w) = true ->
  create w (chat_request_for raw (MODEL_TEMPLATES (modelExamples w) m) clar)
    = Resolved (Some generated :: others) ->
  exists j calls restructured before after,
    reframe w {| raw_prompt := Some raw; model := Some m; clarifications := clar |}
      = (Some {| status := 200; sent := j |}, calls) /\
    get_path ["reframed"; "raw"] j = Some (JStr restructured) /\
    restructured = trim generated /\
    generated = (before ++ restructured ++ after)%string /\
    all_chars isSpace before = true /\
    all_chars isSpace after = true /\
    trimmed restructured /\
    String.length restructured <= String.length generated /\
    get_path ["original_prompt"] j = Some (JStr raw) /\
    get_path ["error"] j = None.
Proof.
  intros Hraw Hm Hkey Hgen.
  rewrite (reframe_full w raw m generated others clar Hraw Hm Hkey Hgen).
  destruct (trim_between_white_space generated) as (before & after & Hsplit & Hb & Ha).
  eexists. eexists. exists (trim generated), before, after.
  split; [reflexivity|].
  split; [reflexivity|].
  split; [reflexivity|].
  split; [exact Hsplit|].
  split; [exact Hb|].
  split; [exact Ha|].
  split; [apply trim_trimmed|].
  split; [apply trim_length|].
  split; reflexivity.
Qed.

Lemma X10_witness :
  exists j calls restructured before after,
    reframe world_answering (poem_request "claude")
      = (Some {| status := 200; sent := j |}, calls) /\
    get_path ["reframed"; "raw"] j = Some (JStr restructured) /\
    restructured = trim "  <task>Write a poem</task>  " /\
    "  <task>Write a poem</task>  " = (before ++ restructured ++ after)%string /\
    all_chars isSpace before = true /\
    all_chars isSpace after = true /\
    trimmed restructured /\
    String.length restructured <= String.length "  <task>Write a poem</task>  " /\
    get_path ["original_prompt"] j = Some (JStr "Write a poem") /\
    get_path ["error"] j = None.
Proof.
  apply (X10_full_result_trimmed world_answering "Write a poem" "claude"
           "  <task>Write a poem</task>  " [] None).
  - discriminate.
  - discriminate.
  - reflexivity.
  - reflexivity.
Defined.

(** X11.  On a full result for the chatgpt target whose restructured text
    has no heading line after its first line, the system message and the
    user message both carry reframed.raw. *)
Theorem X11_chatgpt_without_heading (w : world) (raw generated : string)
    (others : list (option string)) (clar : option (list (string * string))) :
  raw <> EmptyString ->
  configured (process_env w) = true ->
  create w (chat_request_for raw (MODEL_TEMPLATES (modelExamples w) "chatgpt") clar)
    = Resolved (Some generated :: others) ->
  before_boundary (split (ascii_of_nat 10) (trim generated)) [] = None ->
  exists j calls,
    reframe w {| raw_prompt := Some raw; model := Some "chatgpt";
                 clarifications := clar |}
      = (Some {| status := 200; sent := j |}, calls) /\
    get_path ["reframed"; "raw"] j = Some (JStr (trim generated)) /\
    get_path ["reframed"; "api_ready"; "messages"] j
      = Some (JArr [message "system" (trim generated);
                    message "user" (trim generated)]).
Proof.
  intros Hraw Hkey Hgen Hnone.
  assert (MODEL_TEMPLATES (modelExamples w) "chatgpt" <> Undefined) as Hm
    by discriminate.
  rewrite (reframe_full w raw "chatgpt" generated others clar Hraw Hm Hkey Hgen).
  eexists. eexists. split; [reflexivity|]. split; [reflexivity|].
  change (Some (JArr [message "system" (extractSystemPrompt (trim generated));
                      message "user" (extractUserTask (trim generated))])
          = Some (JArr [message "system" (trim generated);
                        message "user" (trim generated)])).
  rewrite extractSystemPrompt_stated. unfold stated_system_content.
  rewrite Hnone, trim_idempotent. unfold or_else, extractUserTask.
  destruct (truthy (trim generated)); reflexivity.
Qed.

Lemma X11_witness :
  exists j calls,
    reframe world_answering (poem_request "chatgpt")
      = (Some {| status := 200; sent := j |}, calls) /\
    get_path ["reframed"; "raw"] j
      = Some (JStr (trim "  <task>Write a poem</task>  ")) /\
    get_path ["reframed"; "api_ready"; "messages"] j
      = Some (JArr [message "system" (trim "  <task>Write a poem</task>  ");
                    message "user" (trim "  <task>Write a poem</task>  ")]).
Proof.
  apply (X11_chatgpt_without_heading world_answering "Write a poem"
           "  <task>Write a poem</task>  " [] None).
  - discriminate.
  - reflexivity.
  - reflexivity.
  - reflexivity.
Defined.



(* ================================================================== *)
(** ** CORS: origins are compared as a whole *)
(* ================================================================== *)

(** X13.  An origin that only begins with an allowed origin is refused:
    nothing may follow an allowed origin (no further host label, port or
    path). *)
Theorem X13_cors_exact_origin (allowed more : string) :
  In allowed ["https://reframe.co.in"; "https://www.reframe.co.in";
              "https://frame-frontend-beta.vercel.app"; "http://localhost:8080"] ->
  more <> EmptyString ->
  cors_origin (Some allowed) = CorsAllowed /\
  cors_origin (Some (allowed ++ more)%string)
    = CorsError "CORS not allowed for this origin".
Proof.
  intros Hin Hmore.
  destruct more as [|c more]; [contradiction|].
  destruct Hin as [<-|[<-|[<-|[<-|[]]]]]; split; reflexivity.
Qed.

Lemma X13_witness :
  cors_origin (Some "https://reframe.co.in") = CorsAllowed /\
  cors_origin (Some ("https://reframe.co.in" ++ ".example.org")%string)
    = CorsError "CORS not allowed for this origin".
Proof.
  apply (X13_cors_exact_origin "https://reframe.co.in" ".example.org").
  - simpl. tauto.
  - discriminate.
Defined.

(* ================================================================== *)
(** ** Users and saved prompts *)
(* ================================================================== *)

Section AccountsFacts.

Import Accounts.

Lemma map_get_set_same {V} (k : string) (v : V) (m : Map V) :
  map_get k (map_set k v m) = Some v.
Proof.
  induction m as [|[k' v'] m IH]; simpl.
  - now rewrite String.eqb_refl.
  - destruct (String.eqb k k') eqn:E; simpl; rewrite E; [reflexivity | exact IH].
Qed.

Lemma map_get_set_other {V} (k k' : string) (v : V) (m : Map V) :
  k <> k' -> map_get k (map_set k' v m) = map_get k m.
Proof.
  intros Hne. induction m as [|[k2 v2] m IH]; simpl.
  - apply String.eqb_neq in Hne. now rewrite Hne.
  - destruct (String.eqb k' k2) eqn:E; simpl.
    + apply String.eqb_eq in E. subst k2.
      apply String.eqb_neq in Hne. now rewrite Hne.
    + destruct (String.eqb k k2); [reflexivity | exact IH].
Qed.

Lemma lookup_assign_same (k : string) (v : json) (fields : list (string * json)) :
  lookup k (assign k v fields) = Some v.
Proof.
  induction fields as [|[k' v'] fields IH]; simpl.
  - now rewrite String.eqb_refl.
  - destruct (String.eqb k k') eqn:E; simpl; rewrite E; [reflexivity | exact IH].
Qed.

Lemma lookup_assign_other (k k' : string) (v : json) (fields : list (string * json)) :
  k <> k' -> lookup k (assign k' v fields) = lookup k fields.
Proof.
  intros Hne. induction fields as [|[k2 v2] fields IH]; simpl.
  - apply String.eqb_neq in Hne. now rewrite Hne.
  - destruct (String.eqb k' k2) eqn:E; simpl.
    + apply String.eqb_eq in E. subst k2.
      apply String.eqb_neq in Hne. now rewrite Hne.
    + destruct (String.eqb k k2); [reflexivity | exact IH].
Qed.

Lemma lookup_spread_absent (k : string) (fields : list (string * json)) :
  forall acc, ~ In k (map fst fields) -> lookup k (spread fields acc) = lookup k acc.
Proof.
  unfold spread. induction fields as [|[k1 v1] fields IH]; intros acc Hk; [reflexivity|].
  simpl in *. rewrite IH by tauto.
  apply lookup_assign_other. intros ->. tauto.
Qed.

Lemma lookup_spread_present (k : string) (v : json) (fields : list (string * json)) :
  forall acc, NoDup (map fst fields) -> In (k, v) fields ->
              lookup k (spread fields acc) = Some v.
Proof.
  induction fields as [|[k1 v1] fields IH]; intros acc Hnd Hin; [contradiction|].
  simpl in Hnd. inversion Hnd as [|? ? Hfresh Hnd']; subst.
  destruct Hin as [Heq | Hin].
  - inversion Heq; subst.
    change (spread ((k, v) :: fields) acc) with (spread fields (assign k v acc)).
    rewrite lookup_spread_absent by exact Hfresh.
    apply lookup_assign_same.
  - change (spread ((k1, v1) :: fields) acc) with (spread fields (assign k1 v1 acc)).
    now apply IH.
Qed.

End AccountsFacts.

(** X14.  Saving a prompt as an authenticated user and then listing the
    prompts of that user gives the list as it was before, followed by the
    saved prompt. *)
Theorem X14_save_then_list (savedPrompts : Accounts.Map (list json))
    (u : Accounts.user) (now_ms now_iso : string) (fields : list (string * json)) :
  exists prompt before,
    fst (Accounts.save_prompt savedPrompts (Some u) now_ms now_iso fields)
      = Accounts.Saved prompt /\
    Accounts.list_prompts savedPrompts (Some u) = Accounts.Prompts before /\
    Accounts.list_prompts
      (snd (Accounts.save_prompt savedPrompts (Some u) now_ms now_iso fields))
      (Some u)
      = Accounts.Prompts (before ++ [prompt]).
Proof.
  unfold Accounts.save_prompt, Accounts.list_prompts, Accounts.map_has. cbv zeta.
  cbn [fst snd].
  destruct (Accounts.map_get (Accounts.id u) savedPrompts) as [l|] eqn:E; cbn [negb].
  - rewrite E. eexists. exists l. split; [reflexivity|]. split; [reflexivity|].
    now rewrite map_get_set_same.
  - rewrite map_get_set_same. eexists. exists []. split; [reflexivity|].
    split; [reflexivity|]. now rewrite map_get_set_same.
Qed.

(** X15.  Saving a prompt changes the list of no other user, and a
    request without a session is answered with status 401 and changes no
    list at all. *)
Theorem X15_save_touches_one_user (savedPrompts : Accounts.Map (list json))
    (u other : Accounts.user) (now_ms now_iso : string)
    (fields : list (string * json)) :
  Accounts.id other <> Accounts.id u ->
  Accounts.list_prompts
    (snd (Accounts.save_prompt savedPrompts (Some u) now_ms now_iso fields))
    (Some other)
    = Accounts.list_prompts savedPrompts (Some other) /\
  Accounts.save_prompt savedPrompts None now_ms now_iso fields
    = (Accounts.SaveError 401 "Authentication required", savedPrompts) /\
  Accounts.list_prompts savedPrompts None
    = Accounts.PromptsError 401 "Authentication required".
Proof.
  intros Hne. split; [|split; reflexivity].
  unfold Accounts.save_prompt, Accounts.list_prompts, Accounts.map_has. cbv zeta.
  cbn [snd].
  destruct (Accounts.map_get (Accounts.id u) savedPrompts) as [l|] eqn:E; cbn [negb].
  - now rewrite map_get_set_other.
  - now rewrite !map_get_set_other.
Qed.

Lemma X15_witness :
  let alice := {| Accounts.id := "1"; Accounts.name := "Alice";
                  Accounts.email := "alice@example.org"; Accounts.avatar := "a.png" |} in
  let bob := {| Accounts.id := "2"; Accounts.name := "Bob";
                Accounts.email := "bob@example.org"; Accounts.avatar := "b.png" |} in
  let store := [("2", [JObj [("id", JStr "7")]])] in
  Accounts.list_prompts
    (snd (Accounts.save_prompt store (Some alice) "1767225600000"
            "2026-01-01T00:00:00.000Z" [("title", JStr "Poem")]))
    (Some bob)
    = Accounts.list_prompts store (Some bob) /\
  Accounts.save_prompt store None "1767225600000" "2026-01-01T00:00:00.000Z"
                       [("title", JStr "Poem")]
    = (Accounts.SaveError 401 "Authentication required", store) /\
  Accounts.list_prompts store None
    = Accounts.PromptsError 401 "Authentication required".
Proof.
  cbv zeta.
  apply (X15_save_touches_one_user
           [("2", [JObj [("id", JStr "7")]])]
           {| Accounts.id := "1"; Accounts.name := "Alice";
              Accounts.email := "alice@example.org"; Accounts.avatar := "a.png" |}
           {| Accounts.id := "2"; Accounts.name := "Bob";
              Accounts.email := "bob@example.org"; Accounts.avatar := "b.png" |}).
  discriminate.
Defined.

(** X16.  In a saved prompt savedAt is always the time of the server, even
    when the body carries a savedAt; every other field of the body is kept
    as sent, including an id, which then replaces the generated one; the id
    is the clock reading only when the body has none. *)
Theorem X16_saved_prompt_fields (savedPrompts : Accounts.Map (list json))
    (u : Accounts.user) (now_ms now_iso : string) (fields : list (string * json)) :
  NoDup (map fst fields) ->
  exists prompt,
    fst (Accounts.save_prompt savedPrompts (Some u) now_ms now_iso fields)
      = Accounts.Saved prompt /\
    get "savedAt" prompt = Some (JStr now_iso) /\
    (forall k v, In (k, v) fields -> k <> "savedAt" -> get k prompt = Some v) /\
    (~ In "id" (map fst fields) -> get "id" prompt = Some (JStr now_ms)).
Proof.
  intros Hnd. unfold Accounts.save_prompt. cbv zeta. cbn [fst].
  eexists. split; [reflexivity|]. cbn [get]. split; [|split].
  - apply lookup_assign_same.
  - intros k v Hin Hk. rewrite lookup_assign_other by exact Hk.
    now apply lookup_spread_present.
  - intros Hid. rewrite lookup_assign_other by discriminate.
    now rewrite lookup_spread_absent.
Qed.

Lemma X16_witness :
  exists prompt,
    fst (Accounts.save_prompt []
           (Some {| Accounts.id := "1"; Accounts.name := "Alice";
                    Accounts.email := "alice@example.org";
                    Accounts.avatar := "a.png" |})
           "1767225600000" "2026-01-01T00:00:00.000Z"
           [("title", JStr "Poem"); ("savedAt", JStr "1999"); ("id", JStr "mine")])
      = Accounts.Saved prompt /\
    get "savedAt" prompt = Some (JStr "2026-01-01T00:00:00.000Z") /\
    (forall k v,
       In (k, v) [("title", JStr "Poem"); ("savedAt", JStr "1999"); ("id", JStr "mine")] ->
       k <> "savedAt" -> get k prompt = Some v) /\
    (~ In "id" (map fst [("title", JStr "Poem"); ("savedAt", JStr "1999");
                         ("id", JStr "mine")]) ->
     get "id" prompt = Some (JStr "1767225600000")).
Proof.
  apply (X16_saved_prompt_fields []).
  repeat constructor; simpl; intuition discriminate.
Defined.

(** X17.  After a login whose profile has an e-mail address and a photo,
    the session id of the user leads back to that user, with the first
    address and the first photo; the users stored under other ids are as
    before.  A profile without an address or without a photo stores
    nothing. *)
Theorem X17_login_round_trip (users : Accounts.Map Accounts.user)
    (p : Accounts.profile) :
  match Accounts.verify users p with
  | Some (u, users') =>
      Accounts.deserializeUser users' (Accounts.serializeUser u) = Some u /\
      Accounts.id u = Accounts.profile_id p /\
      Accounts.name u = Accounts.displayName p /\
      Some (Accounts.email u) = hd_error (Accounts.emails p) /\
      Some (Accounts.avatar u) = hd_error (Accounts.photos p) /\
      (forall other, other <> Accounts.profile_id p ->
         Accounts.deserializeUser users' other = Accounts.deserializeUser users other)
  | None => Accounts.emails p = [] \/ Accounts.photos p = []
  end.
Proof.
  unfold Accounts.verify, Accounts.deserializeUser, Accounts.serializeUser.
  destruct (Accounts.emails p) as [|e es]; [now left|].
  destruct (Accounts.photos p) as [|ph phs]; [now right|].
  cbn [Accounts.id Accounts.name Accounts.email Accounts.avatar hd_error].
  split; [apply map_get_set_same|].
  repeat split. intros other Hne. now apply map_get_set_other.
Qed.

(* ================================================================== *)
(** ** Clarifications reach the completion service *)
(* ================================================================== *)

Section Clarifications.

Ltac append_normal :=
  unfold newline; repeat (rewrite ?string_append_assoc; simpl); reflexivity.

Lemma clarification_line_occurs (k v : string) (entries : list (string * string)) :
  In (k, v) entries ->
  occurs_in ("- " ++ k ++ ": " ++ v ++ newline) (clarification_lines entries).
Proof.
  induction entries as [|[k1 v1] entries IH]; intros Hin; [contradiction|].
  destruct Hin as [Heq | Hin].
  - inversion Heq; subst. exists EmptyString, (clarification_lines entries).
    cbn [clarification_lines]. append_normal.
  - destruct (IH Hin) as (a & b & Hab).
    exists ("- " ++ k1 ++ ": " ++ v1 ++ newline ++ a)%string, b.
    cbn [clarification_lines]. rewrite Hab. append_normal.
Qed.

End Clarifications.

(** X18.  The user message sent to the completion service begins with
    Original prompt: and the raw prompt.  Each clarification is in it as a
    line of the form - key: value; without clarifications, or with an empty
    set of them, nothing follows the raw prompt. *)
Theorem X18_clarifications_in_user_message (raw : string) (tpl : property)
    (entries : list (string * string)) (k v : string) :
  In (k, v) entries ->
  (exists system user,
     map content (messages (chat_request_for raw tpl (Some entries)))
       = [system; Some user] /\
     startsWith user ("Original prompt: " ++ raw) = true /\
     occurs_in ("- " ++ k ++ ": " ++ v ++ newline) user) /\
  (exists system,
     map content (messages (chat_request_for raw tpl None))
       = [system; Some ("Original prompt: " ++ raw)%string]) /\
  chat_request_for raw tpl (Some []) = chat_request_for raw tpl None.
Proof.
  intros Hin. split; [|split].
  - unfold chat_request_for. cbv zeta. cbn [messages map content].
    eexists. eexists. split; [reflexivity|]. split.
    + apply startsWith_iff. eexists. rewrite string_append_assoc. reflexivity.
    + destruct entries as [|e es]; [contradiction|].
      cbn [clarificationContext].
      destruct (clarification_line_occurs k v (e :: es) Hin) as (a & b & Hab).
      rewrite Hab.
      exists ("Original prompt: " ++ raw ++ newline ++ newline
              ++ "Clarifications provided by user:" ++ newline ++ a)%string, b.
      unfold newline; repeat (rewrite ?string_append_assoc; simpl); reflexivity.
  - unfold chat_request_for. cbv zeta. cbn [messages map content clarificationContext].
    eexists. now rewrite append_nil_r.
  - reflexivity.
Qed.

Lemma X18_witness :
  (exists system user,
     map content
       (messages (chat_request_for "Write a poem" Inherited
                    (Some [("tone", "formal"); ("length", "short")])))
       = [system; Some user] /\
     startsWith user ("Original prompt: " ++ "Write a poem") = true /\
     occurs_in ("- " ++ "length" ++ ": " ++ "short" ++ newline) user) /\
  (exists system,
     map content (messages (chat_request_for "Write a poem" Inherited None))
       = [system; Some ("Original prompt: " ++ "Write a poem")%string]) /\
  chat_request_for "Write a poem" Inherited (Some [])
    = chat_request_for "Write a poem" Inherited None.
Proof.
  apply (X18_clarifications_in_user_message "Write a poem" Inherited
           [("tone", "formal"); ("length", "short")] "length" "short").
  simpl. tauto.
Defined.
